(** * PreçoZap service worker (sw.js): request routing and caching strategies

    A shallow embedding of [sw.js].  The worker's handlers are written in a
    small state-and-exception monad over a [World] that holds what the host
    runtime provides: the origin's cache storage, the outcome of network
    fetches, the clock, and a log of the effectful host calls.

    Conventions of the model:
    - an [await]ed call and a call whose promise is left floating both run to
      completion at the point where they are issued;
    - a value that may be [undefined] is an [option];
    - numbers are integers ([Z]); [NaN] is [None];
    - the host's validation is part of the model where the worker can meet
      it: [new Response] throws on a status it refuses, [cache.put] writes
      nothing when the host refuses the request or the response, and
      [response.text()] decodes the body as UTF-8; storage faults (quota) are
      outside the model. *)

From Stdlib Require Import ZArith String Ascii List Bool Lia DecimalString.
From Stdlib Require DecimalPos.
From stdpp Require Import base strings gmap list.
Import ListNotations.

Local Open Scope string_scope.
Local Open Scope Z_scope.

(** ** Strings: the JavaScript string methods the worker uses *)

Module JsString.

(** [s.startsWith(p)] *)
Fixpoint startsWith (s p : string) : bool :=
  match p with
  | EmptyString => true
  | String c p' =>
      match s with
      | EmptyString => false
      | String d s' => if Ascii.eqb c d then startsWith s' p' else false
      end
  end.

(** [s.includes(p)] *)
Fixpoint includes (s p : string) : bool :=
  if startsWith s p then true
  else match s with
       | EmptyString => false
       | String _ s' => includes s' p
       end.

(** [a === b] on strings *)
Definition strict_eq (a b : string) : bool := String.eqb a b.

Definition lower_ascii (c : ascii) : ascii :=
  let n := nat_of_ascii c in
  if ((65 <=? n) && (n <=? 90))%nat then ascii_of_nat (n + 32) else c.

(** ASCII lower-casing, as the host applies to header names. *)
Fixpoint lower (s : string) : string :=
  match s with
  | EmptyString => EmptyString
  | String c s' => String (lower_ascii c) (lower s')
  end.

(** [n.toString()] for an integer [n]. *)
Definition toString (n : Z) : string := NilZero.string_of_int (Z.to_int n).

Definition is_space (c : ascii) : bool :=
  let n := nat_of_ascii c in
  ((n =? 32) || ((9 <=? n) && (n <=? 13)))%nat.

Fixpoint trim_start (s : string) : string :=
  match s with
  | String c s' => if is_space c then trim_start s' else s
  | EmptyString => EmptyString
  end.

(** The value of a character as a digit in radix [r], if it is one. *)
Definition digit_of (r : Z) (c : ascii) : option Z :=
  let n := Z.of_nat (nat_of_ascii c) in
  let v := if (48 <=? n) && (n <=? 57) then Some (n - 48)
           else if (97 <=? n) && (n <=? 122) then Some (n - 87)
           else if (65 <=? n) && (n <=? 90) then Some (n - 55)
           else None in
  match v with
  | Some d => if d <? r then Some d else None
  | None => None
  end.

(** The longest prefix of digits, read in radix [r], starting from the
    accumulator [acc]; [seen] tells whether a digit was read already. *)
Fixpoint digits (r : Z) (s : string) (seen : bool) (acc : Z) : option Z :=
  match s with
  | EmptyString => if seen then Some acc else None
  | String c s' =>
      match digit_of r c with
      | Some d => digits r s' true (acc * r + d)
      | None => if seen then Some acc else None
      end
  end.

(** [parseInt(s)] with no radix argument: leading white space, a sign, an
    optional [0x] prefix, then the longest run of digits.  [None] is [NaN]. *)
Definition parseInt (s : string) : option Z :=
  let s1 := trim_start s in
  let '(sign, s2) :=
    match s1 with
    | String "-" t => (-1, t)
    | String "+" t => (1, t)
    | _ => (1, s1)
    end in
  let '(radix, s3) :=
    match s2 with
    | String "0" (String "x" t) => (16, t)
    | String "0" (String "X" t) => (16, t)
    | _ => (10, s2)
    end in
  match digits radix s3 false 0 with
  | Some v => Some (sign * v)
  | None => None
  end.

(** Tab or space. *)
Definition is_blank (c : ascii) : bool :=
  let n := nat_of_ascii c in ((n =? 9) || (n =? 32))%nat.

Fixpoint strip_start (s : string) : string :=
  match s with
  | String c s' => if is_blank c then strip_start s' else s
  | EmptyString => EmptyString
  end.

Fixpoint strip_end (s : string) : string :=
  match s with
  | EmptyString => EmptyString
  | String c s' =>
      let t := strip_end s' in
      if is_blank c && String.eqb t "" then "" else String c t
  end.

(** The items of a comma-separated header value, without the blanks around
    them. *)
Fixpoint split_commas_from (s current : string) : list string :=
  match s with
  | EmptyString => [strip_end (strip_start current)]
  | String c s' =>
      if (nat_of_ascii c =? 44)%nat
      then strip_end (strip_start current) :: split_commas_from s' ""
      else split_commas_from s' (current ++ String c "")
  end.

Definition split_commas (s : string) : list string := split_commas_from s "".

End JsString.

(** ** Bodies as text: the host's UTF-8 decoding *)

Module Utf8.

(** What a byte announces when no sequence is open. *)
Inductive Lead :=
| Single
| Opens (more : nat) (lower upper : Z)
| Invalid.

Definition lead (b : Z) : Lead :=
  if b <=? 127 then Single
  else if (194 <=? b) && (b <=? 223) then Opens 1 128 191
  else if (224 <=? b) && (b <=? 239) then
    Opens 2 (if b =? 224 then 160 else 128) (if b =? 237 then 159 else 191)
  else if (240 <=? b) && (b <=? 244) then
    Opens 3 (if b =? 240 then 144 else 128) (if b =? 244 then 143 else 191)
  else Invalid.

(** U+FFFD in UTF-8. *)
Definition replacement : string :=
  String (ascii_of_nat 239) (String (ascii_of_nat 191) (String (ascii_of_nat 189) "")).

(** The decoder of the Encoding Standard, followed by the encoder: a well
    formed sequence is copied, every error gives U+FFFD, and the byte that
    breaks a sequence is read again as the start of the next one.  [needed]
    counts the bytes that the open sequence still wants, [lower] and [upper]
    bound its next byte, [pending] holds its bytes so far. *)
Fixpoint decode (s : string) (needed : nat) (lower upper : Z) (pending : string)
    : string :=
  match s with
  | EmptyString =>
      match needed with
      | O => ""
      | S _ => replacement
      end
  | String c rest =>
      let b := Z.of_nat (nat_of_ascii c) in
      let fresh :=
        match lead b with
        | Single => String c (decode rest 0 128 191 "")
        | Opens n l u => decode rest n l u (String c "")
        | Invalid => replacement ++ decode rest 0 128 191 ""
        end in
      match needed with
      | O => fresh
      | S n =>
          if (lower <=? b) && (b <=? upper) then
            match n with
            | O => pending ++ String c (decode rest 0 128 191 "")
            | S _ => decode rest n 128 191 (pending ++ String c "")
            end
          else replacement ++ fresh
      end
  end.

(** A leading byte order mark is dropped. *)
Definition strip_bom (s : string) : string :=
  match s with
  | String a (String b (String c rest)) =>
      if ((nat_of_ascii a =? 239) && (nat_of_ascii b =? 187) && (nat_of_ascii c =? 191))%nat
      then rest else s
  | _ => s
  end.

(** The bytes of the string that [response.text()] resolves with, encoded
    again as UTF-8 as [new Response(string)] does. *)
Definition text (bytes : string) : string := decode (strip_bom bytes) 0 128 191 "".

End Utf8.

(** ** JSON values and [JSON.stringify] *)

#[local] Set Warnings "-register-all".

Inductive JSON : Type :=
| JNull
| JBool (b : bool)
| JNumber (n : Z)
| JString (s : string)
| JArray (items : list JSON)
| JObject (fields : list (string * JSON)).

Module Json.

(** The double-quote character. *)
Definition dquote : ascii := ascii_of_nat 34.

(** [sq s] is [s] with every apostrophe turned into a double quote: the
    expected JSON texts below are written with apostrophes. *)
Fixpoint sq (s : string) : string :=
  match s with
  | EmptyString => EmptyString
  | String c s' =>
      String (if (nat_of_ascii c =? 39)%nat then dquote else c) (sq s')
  end.

Definition hex_digit (n : nat) : ascii :=
  ascii_of_nat (if (n <? 10)%nat then 48 + n else 87 + n).

(** The escape of one character inside a JSON string literal. *)
Definition escape_char (c : ascii) : string :=
  let n := nat_of_ascii c in
  if (n =? 34)%nat then String "\" (String dquote EmptyString)
  else if (n =? 92)%nat then "\\"
  else if (n =? 8)%nat then "\b"
  else if (n =? 9)%nat then "\t"
  else if (n =? 10)%nat then "\n"
  else if (n =? 12)%nat then "\f"
  else if (n =? 13)%nat then "\r"
  else if (n <? 32)%nat then
    "\u00" ++ String (hex_digit (n / 16)) (String (hex_digit (n mod 16)) EmptyString)
  else String c EmptyString.

Fixpoint escape (s : string) : string :=
  match s with
  | EmptyString => EmptyString
  | String c s' => escape_char c ++ escape s'
  end.

Definition quote (s : string) : string :=
  String dquote (escape s ++ String dquote EmptyString).

Definition join (parts : list string) : string :=
  match parts with
  | [] => ""
  | p :: ps => fold_left (fun acc q => acc ++ "," ++ q) ps p
  end.

(** [JSON.stringify(v)] with no indentation. *)
Fixpoint stringify (v : JSON) : string :=
  match v with
  | JNull => "null"
  | JBool true => "true"
  | JBool false => "false"
  | JNumber n => JsString.toString n
  | JString s => quote s
  | JArray items => "[" ++ join (map stringify items) ++ "]"
  | JObject fields =>
      "{" ++ join (map (fun kv => quote (fst kv) ++ ":" ++ stringify (snd kv)) fields) ++ "}"
  end.

(** [v.k] for a parsed value [v]: the property of an object, [undefined]
    ([None]) on anything else. *)
Fixpoint lookup_field (fields : list (string * JSON)) (k : string) : option JSON :=
  match fields with
  | [] => None
  | (k', v) :: rest => if String.eqb k k' then Some v else lookup_field rest k
  end.

Definition prop (v : JSON) (k : string) : option JSON :=
  match v with
  | JObject fields => lookup_field fields k
  | _ => None
  end.

(** JavaScript truthiness of a parsed value. *)
Definition truthy (v : JSON) : bool :=
  match v with
  | JNull => false
  | JBool b => b
  | JNumber n => negb (n =? 0)
  | JString s => negb (String.eqb s "")
  | JArray _ | JObject _ => true
  end.

(** [x || d] where [x] may be [undefined]. *)
Definition or_else (x : option JSON) (d : JSON) : JSON :=
  match x with
  | Some v => if truthy v then v else d
  | None => d
  end.

End Json.

(** ** Requests, responses and headers *)

(** The result of [new URL(request.url)]: the serialised URL and the two
    components the worker reads.  Parsing is the host's. *)
Record URL := {
  href : string;
  hostname : string;
  origin : string
}.

Record Request := {
  url : URL;
  method : string
}.

(** The identity of a request inside a store: method and URL. *)
Definition request_key (r : Request) : string * string :=
  (method r, href (url r)).

Record Response := {
  status : Z;
  headers : gmap string string;
  body : string
}.

Module Headers.

(** [h.get(name)]; [None] is [null]. *)
Definition get (h : gmap string string) (name : string) : option string :=
  h !! JsString.lower name.

(** [h.set(name, value)] *)
Definition set (name value : string) (h : gmap string string) : gmap string string :=
  <[JsString.lower name := value]> h.

(** [h.has(name)] *)
Definition has (h : gmap string string) (name : string) : bool :=
  match get h name with Some _ => true | None => false end.

End Headers.

(** [response.ok] *)
Definition ok (r : Response) : bool := (200 <=? status r) && (status r <=? 299).

(** The response that [new Response(text, { status, headers })] builds for a
    string body when it accepts the status: the host adds a text content type
    when the headers carry none. *)
Definition response_with (text : string) (st : Z) (h : gmap string string) : Response :=
  {| status := st;
     headers := if Headers.has h "Content-Type" then h
                else Headers.set "Content-Type" "text/plain;charset=UTF-8" h;
     body := text |}.

(** [response.clone()] *)
Definition clone (r : Response) : Response := r.

(** [await response.text()], as the bytes that a new response made from the
    string carries. *)
Definition text (r : Response) : string := Utf8.text (body r).

(** The statuses of responses that cannot have a body. *)
Definition null_body_status (st : Z) : bool :=
  (st =? 101) || (st =? 103) || (st =? 204) || (st =? 205) || (st =? 304).

(** A [Vary] header one of whose items is the wildcard. *)
Definition vary_star (h : gmap string string) : bool :=
  match Headers.get h "Vary" with
  | Some v => existsb (fun item => String.eqb item "*") (JsString.split_commas v)
  | None => false
  end.

(** What the host requires of a request and a response to store them with
    [cache.put]: an http or https URL, the method GET, a response that is not
    partial content and does not vary on everything. *)
Definition put_accepted (r : Request) (resp : Response) : bool :=
  (JsString.startsWith (href (url r)) "http:"
   || JsString.startsWith (href (url r)) "https:")
  && String.eqb (method r) "GET"
  && negb (status resp =? 206)
  && negb (vary_star (headers resp)).

(** What [cache.addAll] requires of a fetched response. *)
Definition addAll_accepted (resp : Response) : bool :=
  ok resp && negb (status resp =? 206) && negb (vary_star (headers resp)).

(** ** The host *)

(** What the worker shows through [showNotification]. *)
Record Notification := {
  title : JSON;
  n_body : JSON;
  icon : string;
  badge : string;
  vibrate : list Z;
  data_url : JSON
}.

(** The effectful host calls, in the order they are issued. *)
Inductive HostCall :=
| CallFetch (r : Request)
| CallOpen (name : string)
| CallPut (name : string) (key : string * string) (resp : Response)
| CallDelete (name : string)
| CallClaim
| CallShowNotification (n : Notification).

Inductive Exn := TypeError | RangeError | SyntaxError | Error (msg : string).

(** The origin's cache storage is the list of its named stores in creation
    order; a store maps request identities to responses. *)
Record World := {
  caches : list (string * gmap (string * string) Response);
  network : Request -> option Response;
  now : Z;
  trace : list HostCall
}.

Definition with_caches (cs : list (string * gmap (string * string) Response))
    (w : World) : World :=
  {| caches := cs; network := network w; now := now w; trace := trace w |}.

Definition log (c : HostCall) (w : World) : World :=
  {| caches := caches w; network := network w; now := now w;
     trace := trace w ++ [c] |}.

(** ** The monad of handlers: state that survives a throw *)

Inductive Completion (A : Type) :=
| Normal (a : A)
| Throw (e : Exn).
Arguments Normal {A} a.
Arguments Throw {A} e.

Definition M (A : Type) : Type := World -> Completion A * World.

Definition ret {A} (a : A) : M A := fun w => (Normal a, w).

Definition bind {A B} (c : M A) (k : A -> M B) : M B :=
  fun w => match c w with
           | (Normal a, w') => k a w'
           | (Throw e, w') => (Throw e, w')
           end.

Definition throw {A} (e : Exn) : M A := fun w => (Throw e, w).

(** [try { c } catch { h }], and [p.catch(h)] on a promise. *)
Definition try_catch {A} (c : M A) (h : Exn -> M A) : M A :=
  fun w => match c w with
           | (Normal a, w') => (Normal a, w')
           | (Throw e, w') => h e w'
           end.

Declare Scope js_scope.
Delimit Scope js_scope with js.
Notation "x <- c ;; k" := (bind c (fun x => k))
  (at level 100, c at next level, right associativity) : js_scope.
Notation "c ;;; k" := (bind c (fun _ => k))
  (at level 100, right associativity) : js_scope.
Local Open Scope js_scope.

(** [if (b) c;] *)
Definition when (b : bool) (c : M unit) : M unit := if b then c else ret tt.

(** [new Response(text, { status, headers })] for a string body: a status
    outside 200..599 is a RangeError, a status that allows no body a
    TypeError. *)
Definition new_Response (text : string) (st : Z) (h : gmap string string) : M Response :=
  if negb ((200 <=? st) && (st <=? 599)) then throw RangeError
  else if null_body_status st then throw TypeError
  else ret (response_with text st h).

Definition result {A} (c : M A) (w : World) : Completion A := fst (c w).
Definition after {A} (c : M A) (w : World) : World := snd (c w).

Module Store.

(** The store of a given name, if the storage has one. *)
Fixpoint find (cs : list (string * gmap (string * string) Response)) (name : string)
    : option (gmap (string * string) Response) :=
  match cs with
  | [] => None
  | (n, c) :: rest => if String.eqb n name then Some c else find rest name
  end.

(** The entry of the store [name] for a key. *)
Definition entry (cs : list (string * gmap (string * string) Response))
    (name : string) (key : string * string) : option Response :=
  match find cs name with
  | Some c => c !! key
  | None => None
  end.

(** The first entry for a key over all the stores, in creation order. *)
Fixpoint match_all (cs : list (string * gmap (string * string) Response))
    (key : string * string) : option Response :=
  match cs with
  | [] => None
  | (_, c) :: rest =>
      match c !! key with
      | Some r => Some r
      | None => match_all rest key
      end
  end.

Definition has (cs : list (string * gmap (string * string) Response)) (name : string) : bool :=
  match find cs name with Some _ => true | None => false end.

Definition open (cs : list (string * gmap (string * string) Response)) (name : string)
    : list (string * gmap (string * string) Response) :=
  if has cs name then cs else cs ++ [(name, ∅)].

Fixpoint put (cs : list (string * gmap (string * string) Response)) (name : string)
    (key : string * string) (r : Response)
    : list (string * gmap (string * string) Response) :=
  match cs with
  | [] => []
  | (n, c) :: rest =>
      if String.eqb n name then (n, <[key := r]> c) :: rest
      else (n, c) :: put rest name key r
  end.

Definition delete (cs : list (string * gmap (string * string) Response)) (name : string)
    : list (string * gmap (string * string) Response) :=
  List.filter (fun nc => negb (String.eqb (fst nc) name)) cs.

Definition keys (cs : list (string * gmap (string * string) Response)) : list string :=
  map fst cs.

End Store.

(** [fetch(request)]: resolves with the host's response, or rejects. *)
Definition fetch (r : Request) : M Response :=
  fun w => match network w r with
           | Some resp => (Normal resp, log (CallFetch r) w)
           | None => (Throw TypeError, log (CallFetch r) w)
           end.

(** [Date.now()] *)
Definition Date_now : M Z := fun w => (Normal (now w), w).

(** [caches.match(request)]: looks in every store of the origin. *)
Definition caches_match (r : Request) : M (option Response) :=
  fun w => (Normal (Store.match_all (caches w) (request_key r)), w).

(** [caches.open(name)]: creates the store when absent; the handle of the
    store is its name. *)
Definition caches_open (name : string) : M string :=
  fun w => (Normal name, log (CallOpen name) (with_caches (Store.open (caches w) name) w)).

(** [cache.match(request)] *)
Definition cache_match (cache : string) (r : Request) : M (option Response) :=
  fun w => (Normal (Store.entry (caches w) cache (request_key r)), w).

(** [cache.put(request, response)] with its promise left floating, as at
    every call of the worker: the entry is written when the host accepts the
    pair; when it does not, the promise rejects, nothing is written, and the
    caller, who does not await it, goes on. *)
Definition cache_put (cache : string) (r : Request) (resp : Response) : M unit :=
  fun w => (Normal tt,
            log (CallPut cache (request_key r) resp)
                (with_caches
                   (if put_accepted r resp
                    then Store.put (caches w) cache (request_key r) resp
                    else caches w)
                   w)).

(** [caches.keys()] *)
Definition caches_keys : M (list string) :=
  fun w => (Normal (Store.keys (caches w)), w).

(** [caches.delete(name)]: tells whether the store existed. *)
Definition caches_delete (name : string) : M bool :=
  fun w => (Normal (Store.has (caches w) name),
            log (CallDelete name) (with_caches (Store.delete (caches w) name) w)).

(** [self.clients.claim()] *)
Definition clients_claim : M unit := fun w => (Normal tt, log CallClaim w).

(** [self.registration.showNotification(...)] *)
Definition showNotification (n : Notification) : M unit :=
  fun w => (Normal tt, log (CallShowNotification n) w).

(** [Promise.all(ps)] over promises that were all started, in order: every
    one runs; the first rejection, if any, is the result. *)
Fixpoint Promise_all {A} (ps : list (M A)) : M (list A) :=
  fun w =>
    match ps with
    | [] => (Normal [], w)
    | p :: rest =>
        match p w with
        | (r, w1) =>
            match Promise_all rest w1 with
            | (rs, w2) =>
                (match r, rs with
                 | Normal a, Normal l => Normal (a :: l)
                 | Throw e, _ => Throw e
                 | Normal _, Throw e => Throw e
                 end, w2)
            end
        end
    end.

(** ** The worker *)

Definition CACHE_NAME : string := "precozap-v1".
Definition API_CACHE : string := "precozap-api-v1".

(** Declared by the worker and read nowhere in it. *)
Definition OFFLINE_URL : string := "/index.html".

(** *** Activation: old stores are deleted, then the clients are claimed *)

Section Activate.

(** The two store names of the running version. *)
Variables (shell_name api_name : string).

(** [k !== CACHE_NAME && k !== API_CACHE] *)
Definition is_old (k : string) : bool :=
  negb (JsString.strict_eq k shell_name) && negb (JsString.strict_eq k api_name).

Definition activate_with : M unit :=
  keys <- caches_keys ;;
  (Promise_all (map caches_delete (List.filter is_old keys)) ;;;
   clients_claim).

End Activate.

Definition onActivate : M unit := activate_with CACHE_NAME API_CACHE.

(** *** The strategies *)

Definition json_headers : gmap string string :=
  Headers.set "Content-Type" "application/json" ∅.

Definition cacheFirst (request : Request) : M Response :=
  cached <- caches_match request ;;
  match cached with
  | Some c => ret c
  | None =>
      try_catch
        (response <- fetch request ;;
         (when (ok response)
            (cache <- caches_open CACHE_NAME ;;
             cache_put cache request (clone response)) ;;;
          ret response))
        (fun _ => new_Response "Offline" 503 ∅)
  end.

(** The result is [undefined] ([None]) when nothing was cached and the
    fetch is rejected. *)
Definition staleWhileRevalidate (request : Request) : M (option Response) :=
  cache <- caches_open CACHE_NAME ;;
  cached <- cache_match cache request ;;
  fetchPromise <-
    try_catch
      (response <- fetch request ;;
       (when (ok response) (cache_put cache request (clone response)) ;;;
        ret (Some response)))
      (fun _ => ret cached) ;;
  ret (match cached with
       | Some c => Some c
       | None => fetchPromise
       end).

(** [parseInt(cached.headers.get('sw-cached-at') || '0')] *)
Definition cachedAt (cached : Response) : option Z :=
  JsString.parseInt
    (match Headers.get (headers cached) "sw-cached-at" with
     | Some s => if String.eqb s "" then "0" else s
     | None => "0"
     end).

(** [now - cachedAt < ttlMs], which is false when [cachedAt] is [NaN]. *)
Definition age_below (now_ms : Z) (at_ms : option Z) (ttlMs : Z) : bool :=
  match at_ms with
  | Some t => now_ms - t <? ttlMs
  | None => false
  end.

Definition offline_json : JSON :=
  JObject [("error", JString "offline"); ("elements", JArray [])].

(** The response that [new Response(JSON.stringify(...), ...)] builds for
    the offline answer. *)
Definition offline_stub : Response :=
  response_with (Json.stringify offline_json) 200 json_headers.

Definition networkFirstWithCache (request : Request) (cacheName : string) (ttlMs : Z)
    : M Response :=
  try_catch
    (response <- fetch request ;;
     if ok response then
       cache <- caches_open cacheName ;;
       t <- Date_now ;;
       let headers' := Headers.set "sw-cached-at" (JsString.toString t) (headers response) in
       cloned <- new_Response (text (clone response)) (status response) headers' ;;
       (cache_put cache request cloned ;;;
        ret response)
     else throw (Error "bad response"))
    (fun _ =>
       cache <- caches_open cacheName ;;
       cached <- cache_match cache request ;;
       match cached with
       | Some c =>
           t <- Date_now ;;
           if age_below t (cachedAt c) ttlMs then ret c
           else new_Response (Json.stringify offline_json) 200 json_headers
       | None => new_Response (Json.stringify offline_json) 200 json_headers
       end).

Definition server_offline_json : JSON :=
  JObject [("error", JString "Servidor offline"); ("ok", JBool false)].

Definition server_offline_stub : Response :=
  response_with (Json.stringify server_offline_json) 200 json_headers.

(** The branch of the local scraping server: [fetch(request).catch(...)]. *)
Definition networkOnly (request : Request) : M Response :=
  try_catch (fetch request)
    (fun _ => new_Response (Json.stringify server_offline_json) 200 json_headers).

(** *** The fetch handler *)

Definition TTL : Z := 30 * 60 * 1000.

Definition some {A} (c : M A) : M (option A) := a <- c ;; ret (Some a).

(** [None] when the handler returns without [event.respondWith]: the request
    goes to the network untouched.  Otherwise the promise given to
    [respondWith]. *)
Definition onFetch (self_origin : string) (request : Request)
    : option (M (option Response)) :=
  let u := url request in
  if negb (JsString.startsWith (href u) "http") then None
  else if JsString.strict_eq (hostname u) "localhost"
          || JsString.strict_eq (hostname u) "127.0.0.1" then
    Some (some (networkOnly request))
  else if JsString.includes (hostname u) "openstreetmap"
          || JsString.includes (hostname u) "overpass-api"
          || JsString.includes (hostname u) "nominatim" then
    Some (some (networkFirstWithCache request API_CACHE TTL))
  else if JsString.includes (hostname u) "unpkg.com"
          || JsString.includes (hostname u) "fonts.googleapis"
          || JsString.includes (hostname u) "fonts.gstatic" then
    Some (some (cacheFirst request))
  else if JsString.strict_eq (origin u) self_origin then
    Some (staleWhileRevalidate request)
  else None.

(** *** Push notifications *)

(** The payload of a push event as [event.data.json()] sees it: a text that
    is not JSON, or the value it parses to. *)
Inductive PushMessageData :=
| NotJson (text : string)
| IsJson (v : JSON).

(** [event.data.json()] *)
Definition data_json (d : PushMessageData) : M JSON :=
  match d with
  | NotJson _ => throw SyntaxError
  | IsJson v => ret v
  end.

(** [event.data?.json() || {}] *)
Definition push_payload (data : option PushMessageData) : M JSON :=
  match data with
  | None => ret (JObject [])
  | Some d => v <- data_json d ;; ret (Json.or_else (Some v) (JObject []))
  end.

Definition onPush (data : option PushMessageData) : M unit :=
  payload <- push_payload data ;;
  showNotification
    {| title := Json.or_else (Json.prop payload "title") (JString "PreçoZap ⚡");
       n_body := Json.or_else (Json.prop payload "body") (JString "Novos preços disponíveis!");
       icon := "/icons/icon-192x192.png";
       badge := "/icons/icon-96x96.png";
       vibrate := [200; 100; 200];
       data_url := Json.or_else (Json.prop payload "url") (JString "/") |}.

(** ** The categories of the specification *)

Inductive Category :=
| Ignored
| LocalDevApi
| GeoDataApi
| ExternalCdn
| SameOriginShell.

(** The classifier as the specification words it: an ordered list of rules,
    the first rule that matches decides, and no match means ignored. *)
Module Classifier.

Definition non_http (r : Request) : bool :=
  negb (JsString.startsWith (href (url r)) "http").

Definition loopback (r : Request) : bool :=
  String.eqb (hostname (url r)) "localhost"
  || String.eqb (hostname (url r)) "127.0.0.1".

Definition geo_markers : list string :=
  ["openstreetmap"; "overpass-api"; "nominatim"].

Definition cdn_markers : list string :=
  ["unpkg.com"; "fonts.googleapis"; "fonts.gstatic"].

Definition has_marker (markers : list string) (r : Request) : bool :=
  existsb (JsString.includes (hostname (url r))) markers.

Definition own_origin (self_origin : string) (r : Request) : bool :=
  String.eqb (origin (url r)) self_origin.

Definition rules (self_origin : string) : list ((Request -> bool) * Category) :=
  [ (non_http, Ignored);
    (loopback, LocalDevApi);
    (has_marker geo_markers, GeoDataApi);
    (has_marker cdn_markers, ExternalCdn);
    (own_origin self_origin, SameOriginShell) ].

Fixpoint first_match (rs : list ((Request -> bool) * Category)) (r : Request)
    : Category :=
  match rs with
  | [] => Ignored
  | (p, c) :: rest => if p r then c else first_match rest r
  end.

Definition classify (self_origin : string) (r : Request) : Category :=
  first_match (rules self_origin) r.

(** The strategy of each category; an ignored request is not intercepted. *)
Definition strategy (c : Category) (r : Request) : option (M (option Response)) :=
  match c with
  | Ignored => None
  | LocalDevApi => Some (some (networkOnly r))
  | GeoDataApi => Some (some (networkFirstWithCache r API_CACHE TTL))
  | ExternalCdn => Some (some (cacheFirst r))
  | SameOriginShell => Some (staleWhileRevalidate r)
  end.

End Classifier.

(** ** Predicates of the statements *)

(** The network outcome that network-first treats as a failure: the fetch is
    rejected, or its response is not ok. *)
Definition fetch_failed (w : World) (r : Request) : Prop :=
  match network w r with
  | None => True
  | Some resp => ok resp = false
  end.

(** The entry's time stamp is less than [ttl] before [now_ms]. *)
Definition within_ttl (now_ms : Z) (entry : Response) (ttl : Z) : Prop :=
  exists t, cachedAt entry = Some t /\ now_ms - t < ttl.

(** The time that the sw-cached-at header of an entry states: the number
    that its text starts with; a header that is absent or empty states the
    epoch. *)
Definition header_states (e : Response) (t : Z) : Prop :=
  match Headers.get (headers e) "sw-cached-at" with
  | Some s => if String.eqb s "" then t = 0 else JsString.parseInt s = Some t
  | None => t = 0
  end.

(** The time that the header states is less than [ttl] before [now_ms]. *)
Definition header_within_ttl (now_ms : Z) (e : Response) (ttl : Z) : Prop :=
  exists t, header_states e t /\ now_ms - t < ttl.

(** The stores have distinct names, and none but the shell store has an entry
    for the request: the state that activation and the worker's own writes
    leave for a request that is not a geo-data request. *)
Definition only_shell_has (request : Request) (w : World) : Prop :=
  List.NoDup (Store.keys (caches w))
  /\ forall name,
      name <> CACHE_NAME -> Store.entry (caches w) name (request_key request) = None.

(** A response is the synthetic JSON answer with the given text. *)
Definition json_stub (text : string) (r : Response) : Prop :=
  body r = text /\ status r = 200
  /\ Headers.get (headers r) "Content-Type" = Some "application/json".

(** A logged host call that, when it writes a store, writes an ok response. *)
Definition put_ok (c : HostCall) : Prop :=
  match c with
  | CallPut _ _ r => ok r = true
  | _ => True
  end.

(** Every entry of every store is an ok response. *)
Definition stores_ok (cs : list (string * gmap (string * string) Response)) : Prop :=
  Forall (fun nc => map_Forall (fun _ r => ok r = true) (snd nc)) cs.

(** The computation only appends host calls, its store writes are of ok
    responses, and it keeps the store invariant. *)
Definition writes_only_ok {A} (c : M A) : Prop :=
  forall w,
    (exists calls, trace (after c w) = (trace w ++ calls)%list /\ Forall put_ok calls)
    /\ (stores_ok (caches w) -> stores_ok (caches (after c w))).

(** ** Sample requests and worlds *)

Definition get_request (h host o : string) : Request :=
  {| url := {| href := h; hostname := host; origin := o |}; method := "GET" |}.

Definition leaflet_js : Request :=
  get_request "https://unpkg.com/leaflet@1.9.4/dist/leaflet.js" "unpkg.com" "https://unpkg.com".

Definition app_origin : string := "https://precozap.app".

Definition manifest : Request :=
  get_request "https://precozap.app/manifest.json" "precozap.app" app_origin.

Definition text_response (st : Z) (text : string) : Response :=
  {| status := st; headers := ∅; body := text |}.

(** The page itself has stored the script in a store of its own; the shell
    store exists and has no entry for it; the network is up. *)
Definition page_store_world : World :=
  {| caches := [ ("page-prefetch", {[ request_key leaflet_js := text_response 200 "old" ]});
                 (CACHE_NAME, ∅) ];
     network := fun _ => Some (text_response 200 "new");
     now := 1700000000000;
     trace := [] |}.

(** The shell store is empty and the network answers with partial content. *)
Definition partial_world : World :=
  {| caches := [ (CACHE_NAME, ∅) ];
     network := fun _ => Some (text_response 206 "part");
     now := 1700000000000;
     trace := [] |}.

(** No store yet; the network answers every request with 204 No Content. *)
Definition no_content_world : World :=
  {| caches := [];
     network := fun _ => Some (text_response 204 "");
     now := 1700000000000;
     trace := [] |}.

(** The shell store is empty and every fetch is rejected. *)
Definition offline_world : World :=
  {| caches := [ (CACHE_NAME, ∅) ];
     network := fun _ => None;
     now := 1700000000000;
     trace := [] |}.

Definition osm_tile : Request :=
  get_request "https://tile.openstreetmap.org/12/1500/2300.png" "tile.openstreetmap.org"
    "https://tile.openstreetmap.org".

Definition local_api : Request :=
  get_request "http://localhost:3000/api/prices" "localhost" "http://localhost:3000".

(** An Overpass query, sent with POST. *)
Definition overpass_query : Request :=
  {| url := {| href := "https://overpass-api.de/api/interpreter";
               hostname := "overpass-api.de";
               origin := "https://overpass-api.de" |};
     method := "POST" |}.

(** A tile as network-first stored it at the given time. *)
Definition stored_tile (at_ms : Z) : Response :=
  response_with "tile" 200
    (Headers.set "sw-cached-at" (JsString.toString at_ms) ∅).

(** The API store holds [entry] for the tile; every fetch is rejected. *)
Definition api_world (entry : Response) (now_ms : Z) : World :=
  {| caches := [ (CACHE_NAME, ∅); (API_CACHE, {[ request_key osm_tile := entry ]}) ];
     network := fun _ => None;
     now := now_ms;
     trace := [] |}.

(** The shell store holds an entry for the manifest; the network is up. *)
Definition shell_world : World :=
  {| caches := [ (CACHE_NAME, {[ request_key manifest := text_response 200 "cached" ]}) ];
     network := fun _ => Some (text_response 200 "fresh");
     now := 1700000000000;
     trace := [] |}.

(** No store yet; the network is up. *)
Definition first_visit_world : World :=
  {| caches := [];
     network := fun _ => Some (text_response 200 "fresh");
     now := 1700000000000;
     trace := [] |}.

(** The world after the stores of the given names were deleted, one after
    the other. *)
Definition delete_all (names : list string) (w : World) : World :=
  fold_left (fun w' n => log (CallDelete n) (with_caches (Store.delete (caches w') n) w'))
    names w.

(** The stores that activation keeps. *)
Definition kept (shell_name api_name : string)
    (cs : list (string * gmap (string * string) Response))
    : list (string * gmap (string * string) Response) :=
  List.filter (fun nc => negb (is_old shell_name api_name (fst nc))) cs.

(** The world [w] with the three stores of the activation scenario. *)
Definition three_stores (shell api orphan : gmap (string * string) Response)
    (w : World) : World :=
  with_caches [("v1-shell", shell); ("v1-api", api); ("v0-shell-orphan", orphan)] w.

(** The notification shown when the payload gives nothing. *)
Definition default_notification : Notification :=
  {| title := JString "PreçoZap ⚡";
     n_body := JString "Novos preços disponíveis!";
     icon := "/icons/icon-192x192.png";
     badge := "/icons/icon-96x96.png";
     vibrate := [200; 100; 200];
     data_url := JString "/" |}.

(** ** The rest of the worker: install, sync, notification click *)

(** The calls that act on the worker itself, its clients and its
    notifications rather than on the stores or the network. *)
Inductive WorkerCall :=
| CallSkipWaiting
| CallPostMessage (client : string) (message : JSON)
| CallClose
| CallOpenWindow (target : JSON).

(** Handlers that also issue worker calls: the world, and the log of those
    calls. *)
Definition W (A : Type) : Type :=
  World * list WorkerCall -> Completion A * (World * list WorkerCall).

Definition lift {A} (c : M A) : W A :=
  fun s => match c (fst s) with
           | (r, w') => (r, (w', snd s))
           end.

Definition call (c : WorkerCall) : W unit :=
  fun s => (Normal tt, (fst s, (snd s ++ [c])%list)).

(** [p.then(k)] *)
Definition wthen {A B} (c : W A) (k : A -> W B) : W B :=
  fun s => match c s with
           | (Normal a, s') => k a s'
           | (Throw e, s') => (Throw e, s')
           end.

Definition PRECACHE : list string :=
  [ "/index.html"; "/manifest.json";
    "/icons/icon-192x192.png"; "/icons/icon-512x512.png" ].

(** The request that [cache.addAll] builds from a path: a GET of the path
    under the worker's own origin. *)
Definition precache_request (self_origin self_host path : string) : Request :=
  {| url := {| href := self_origin ++ path; hostname := self_host;
               origin := self_origin |};
     method := "GET" |}.

(** The write of one fetched pair by [cache.addAll]. *)
Definition store_write (cache : string) (rr : Request * Response) (w : World) : World :=
  log (CallPut cache (request_key (fst rr)) (snd rr))
    (with_caches (Store.put (caches w) cache (request_key (fst rr)) (snd rr)) w).

(** The responses of the requests when every one is fetched and accepted. *)
Fixpoint fetched_ok (net : Request -> option Response) (requests : list Request)
    : option (list (Request * Response)) :=
  match requests with
  | [] => Some []
  | r :: rest =>
      match net r with
      | Some resp =>
          if addAll_accepted resp then
            match fetched_ok net rest with
            | Some l => Some ((r, resp) :: l)
            | None => None
            end
          else None
      | None => None
      end
  end.

(** [cache.addAll(requests)], for GET requests that are pairwise distinct:
    every request is fetched; when a fetch is rejected or a response is not
    ok, is partial content or varies on everything, the promise rejects and
    nothing is written; otherwise every response is written. *)
Definition cache_addAll (cache : string) (requests : list Request) : M unit :=
  fun w =>
    let w1 := fold_left (fun w' r => log (CallFetch r) w') requests w in
    match fetched_ok (network w) requests with
    | Some l =>
        (Normal tt,
         fold_left (fun w' rr => store_write cache rr w') l w1)
    | None => (Throw TypeError, w1)
    end.

(** [self.skipWaiting()] *)
Definition skipWaiting : W unit := call CallSkipWaiting.

(** The promise given to [event.waitUntil] by the install handler, for a
    worker served from [self_origin]. *)
Definition onInstall (self_origin self_host : string) : W unit :=
  wthen
    (lift (cache <- caches_open CACHE_NAME ;;
           cache_addAll cache (map (precache_request self_origin self_host) PRECACHE)))
    (fun _ => skipWaiting).

Definition sync_complete : JSON := JObject [("type", JString "SYNC_COMPLETE")].

(** [clients.forEach(client => client.postMessage(...))], for the clients
    that [self.clients.matchAll()] resolved with. *)
Definition syncPendingComparisons (clients : list string) : W unit :=
  fun s => (Normal tt,
            fold_left (fun s' c => snd (call (CallPostMessage c sync_complete) s'))
              clients s).

(** The promise given to [event.waitUntil] by the sync handler, if any. *)
Definition onSync (tag : string) (clients : list string) : option (W unit) :=
  if JsString.strict_eq tag "sync-comparisons" then Some (syncPendingComparisons clients)
  else None.

(** [event.notification.data?.url || '/'] *)
Definition click_target (data : option JSON) : JSON :=
  Json.or_else (match data with
                | Some d => Json.prop d "url"
                | None => None
                end) (JString "/").

Definition onNotificationClick (data : option JSON) : W unit :=
  wthen (call CallClose) (fun _ => call (CallOpenWindow (click_target data))).

(** The [data] that the push handler attaches to its notification. *)
Definition notification_data (n : Notification) : option JSON :=
  Some (JObject [("url", data_url n)]).

(** ** Auxiliary notions of the further statements *)

(** The number that a run of decimal digits denotes after the digits already
    read gave [acc]. *)
Fixpoint horner (d : Decimal.uint) (acc : Z) : Z :=
  match d with
  | Decimal.Nil => acc
  | Decimal.D0 l => horner l (acc * 10 + 0)
  | Decimal.D1 l => horner l (acc * 10 + 1)
  | Decimal.D2 l => horner l (acc * 10 + 2)
  | Decimal.D3 l => horner l (acc * 10 + 3)
  | Decimal.D4 l => horner l (acc * 10 + 4)
  | Decimal.D5 l => horner l (acc * 10 + 5)
  | Decimal.D6 l => horner l (acc * 10 + 6)
  | Decimal.D7 l => horner l (acc * 10 + 7)
  | Decimal.D8 l => horner l (acc * 10 + 8)
  | Decimal.D9 l => horner l (acc * 10 + 9)
  end.

(** The world [w] at a later time [now_ms], with the network down. *)
Definition later_offline (now_ms : Z) (w : World) : World :=
  {| caches := caches w; network := fun _ => None; now := now_ms; trace := trace w |}.

(** The world [w] with another network. *)
Definition with_network (net : Request -> option Response) (w : World) : World :=
  {| caches := caches w; network := net; now := now w; trace := trace w |}.

(** Every byte of the string is an ASCII character. *)
Fixpoint ascii_only (s : string) : bool :=
  match s with
  | EmptyString => true
  | String c rest => (Z.of_nat (nat_of_ascii c) <=? 127) && ascii_only rest
  end.

(** What network-first stores for a response fetched at [now_ms]. *)
Definition stamped (resp : Response) (now_ms : Z) : Response :=
  response_with (text resp) (status resp)
    (Headers.set "sw-cached-at" (JsString.toString now_ms) (headers resp)).


(** Between a storage and a later one: every store but [store] is the same,
    and no store has vanished. *)
Definition same_other_stores (store : string)
    (cs cs' : list (string * gmap (string * string) Response)) : Prop :=
  (forall name, name <> store -> Store.find cs' name = Store.find cs name)
  /\ (forall name, Store.has cs name = true -> Store.has cs' name = true).

(** The world after the requests were all sent. *)
Definition requested (requests : list Request) (w : World) : World :=
  fold_left (fun w' r => log (CallFetch r) w') requests w.

(** The world after the responses were all written into the store [cache]. *)
Definition written (cache : string) (pairs : list (Request * Response)) (w : World)
    : World :=
  fold_left (fun w' rr => store_write cache rr w') pairs w.

(** ** Running handlers *)

(** The constructor accepts the statuses that the worker writes out. *)
Lemma new_Response_200 (body_text : string) (h : gmap string string) (w : World) :
  new_Response body_text 200 h w = (Normal (response_with body_text 200 h), w).
Proof. reflexivity. Qed.

Lemma new_Response_503 (w : World) :
  new_Response "Offline" 503 ∅ w = (Normal (response_with "Offline" 503 ∅), w).
Proof. reflexivity. Qed.

Ltac run :=
  unfold result, after, some, networkOnly, when, clone;
  unfold bind, ret, throw, try_catch, fetch, Date_now, caches_match, caches_open,
    cache_match, cache_put; cbn [fst snd caches now network trace log with_caches];
  rewrite ?new_Response_200, ?new_Response_503;
  cbn [fst snd caches now network trace log with_caches].

(** Closes a goal that says which host calls a run appended to the log. *)
Ltac appended calls :=
  run; exists calls; split;
  [ cbn [app]; rewrite <- ?app_assoc, ?app_nil_r; reflexivity
  | repeat constructor; auto ].

(** ** Classification *)

(** The promises the fetch handler can give to [respondWith]. *)
Lemma onFetch_cases (self_origin : string) (request : Request)
    (p : M (option Response)) :
  onFetch self_origin request = Some p ->
  p = some (networkOnly request)
  \/ p = some (networkFirstWithCache request API_CACHE TTL)
  \/ p = some (cacheFirst request)
  \/ p = staleWhileRevalidate request.
Proof.
  unfold onFetch. cbv zeta.
  repeat match goal with
         | |- context [if ?b then _ else _] => destruct b
         end;
    intros [= <-]; auto.
Qed.

(** C4: the fetch handler takes the strategy of the first rule that matches,
    in the order non-HTTP (ignored), loopback (network only), geo-data marker
    (network first with TTL), CDN marker (cache first), own origin (stale
    while revalidate); with no match the request is ignored. *)
Theorem onFetch_first_match (self_origin : string) (request : Request) :
  onFetch self_origin request
  = Classifier.strategy (Classifier.classify self_origin request) request
  /\ Classifier.classify self_origin request
     = (if Classifier.non_http request then Ignored
        else if Classifier.loopback request then LocalDevApi
        else if Classifier.has_marker Classifier.geo_markers request then GeoDataApi
        else if Classifier.has_marker Classifier.cdn_markers request then ExternalCdn
        else if Classifier.own_origin self_origin request then SameOriginShell
        else Ignored).
Proof.
  split; [| reflexivity].
  unfold onFetch, Classifier.classify, Classifier.rules, Classifier.first_match,
    Classifier.non_http, Classifier.loopback, Classifier.has_marker,
    Classifier.own_origin, Classifier.geo_markers, Classifier.cdn_markers,
    JsString.strict_eq, existsb.
  destruct (negb (JsString.startsWith (href (url request)) "http")); [reflexivity |].
  destruct (String.eqb (hostname (url request)) "localhost"
            || String.eqb (hostname (url request)) "127.0.0.1"); [reflexivity |].
  rewrite !orb_false_r, !orb_assoc.
  destruct (JsString.includes (hostname (url request)) "openstreetmap"
            || JsString.includes (hostname (url request)) "overpass-api"
            || JsString.includes (hostname (url request)) "nominatim"); [reflexivity |].
  destruct (JsString.includes (hostname (url request)) "unpkg.com"
            || JsString.includes (hostname (url request)) "fonts.googleapis"
            || JsString.includes (hostname (url request)) "fonts.gstatic"); [reflexivity |].
  destruct (String.eqb (origin (url request)) self_origin); reflexivity.
Qed.

(** The loopback rule comes before the own-origin rule: a worker served from
    the local server still sends its API requests through network-only. *)
Example classify_loopback_first :
  Classifier.classify "http://localhost:3000" local_api = LocalDevApi.
Proof. reflexivity. Qed.

(** A geo-data marker wins over a CDN marker in the same hostname. *)
Example classify_geo_before_cdn :
  Classifier.classify app_origin
    (get_request "https://unpkg.com.nominatim.example/x" "unpkg.com.nominatim.example"
       "https://unpkg.com.nominatim.example")
  = GeoDataApi.
Proof. reflexivity. Qed.

Example classify_samples :
  Classifier.classify app_origin osm_tile = GeoDataApi
  /\ Classifier.classify app_origin leaflet_js = ExternalCdn
  /\ Classifier.classify app_origin manifest = SameOriginShell
  /\ Classifier.classify app_origin
       (get_request "chrome-extension://abcdef/page.js" "abcdef" "chrome-extension://abcdef")
     = Ignored
  /\ Classifier.classify app_origin
       (get_request "https://example.org/" "example.org" "https://example.org")
     = Ignored.
Proof. repeat split. Qed.

(** ** The stores *)

Lemma find_app_new cs name name' :
  Store.find (cs ++ [(name, ∅)]) name'
  = match Store.find cs name' with
    | Some c => Some c
    | None => if String.eqb name name' then Some ∅ else None
    end.
Proof.
  induction cs as [| [n c] cs IH]; cbn [Store.find app].
  - reflexivity.
  - destruct (String.eqb n name'); [reflexivity | exact IH].
Qed.

(** Opening a store changes no entry. *)
Lemma entry_open cs name name' key :
  Store.entry (Store.open cs name) name' key = Store.entry cs name' key.
Proof.
  unfold Store.open, Store.has.
  destruct (Store.find cs name) eqn:Hf; [reflexivity |].
  unfold Store.entry. rewrite find_app_new.
  destruct (Store.find cs name'); [reflexivity |].
  destruct (String.eqb name name'); [apply lookup_empty | reflexivity].
Qed.

Lemma has_open cs name : Store.has (Store.open cs name) name = true.
Proof.
  unfold Store.open. destruct (Store.has cs name) eqn:Hh; [exact Hh |].
  unfold Store.has in *. rewrite find_app_new.
  destruct (Store.find cs name); [discriminate |].
  now rewrite String.eqb_refl.
Qed.

(** A write into an existing store is read back. *)
Lemma entry_put_same cs name key r :
  Store.has cs name = true ->
  Store.entry (Store.put cs name key r) name key = Some r.
Proof.
  unfold Store.has, Store.entry.
  induction cs as [| [n c] cs IH]; cbn [Store.find Store.put]; [discriminate |].
  destruct (String.eqb n name) eqn:He; cbn [Store.find]; rewrite He.
  - intros _. apply lookup_insert_eq.
  - exact IH.
Qed.

(** ** The time stamp survives the header *)

Lemma digits_decimal (d : Decimal.uint) (acc : Z) :
  JsString.digits 10 (NilEmpty.string_of_uint d) true acc = Some (horner d acc).
Proof.
  revert acc. induction d; intros acc; cbn [NilEmpty.string_of_uint horner];
    [reflexivity | ..];
    (cbn [JsString.digits];
     match goal with
     | |- context [JsString.digit_of 10 ?c] =>
         let v := eval vm_compute in (JsString.digit_of 10 c) in
         change (JsString.digit_of 10 c) with v
     end; cbv iota; apply IHd).
Qed.

Lemma horner_pos (d : Decimal.uint) (p : positive) :
  horner d (Z.pos p) = Z.pos (Pos.of_uint_acc d p).
Proof.
  revert p. induction d; intros p; cbn [horner Pos.of_uint_acc]; [reflexivity | ..];
    rewrite <- IHd; f_equal; lia.
Qed.

Lemma horner_zero (d : Decimal.uint) : horner d 0 = Z.of_N (Pos.of_uint d).
Proof.
  induction d; cbn [horner Pos.of_uint]; [reflexivity | exact IHd | ..];
    rewrite Z.mul_0_l, Z.add_0_l; now rewrite horner_pos.
Qed.

(** Reading an unsigned decimal numeral that is not empty. *)
Lemma digits_numeral (d : Decimal.uint) :
  d <> Decimal.Nil ->
  JsString.digits 10 (NilEmpty.string_of_uint d) false 0 = Some (Z.of_N (Pos.of_uint d)).
Proof.
  intros Hd. rewrite <- horner_zero.
  destruct d; [contradiction | ..];
    cbn [NilEmpty.string_of_uint JsString.digits horner];
    match goal with
    | |- context [JsString.digit_of 10 ?c] =>
        let v := eval vm_compute in (JsString.digit_of 10 c) in
        change (JsString.digit_of 10 c) with v
    end; cbv iota; apply digits_decimal.
Qed.

Lemma parseInt_unsigned (d : Decimal.uint) :
  d <> Decimal.Nil ->
  JsString.parseInt (NilEmpty.string_of_uint d) = Some (Z.of_N (Pos.of_uint d)).
Proof.
  intros Hd. rewrite <- (digits_numeral d Hd).
  destruct d as [| d | d | d | d | d | d | d | d | d | d]; [contradiction | ..];
    try (unfold JsString.parseInt; cbn [NilEmpty.string_of_uint JsString.trim_start];
         match goal with
         | |- context [JsString.is_space ?c] =>
             change (JsString.is_space c) with false
         end; cbv iota beta;
         match goal with
         | |- match ?x with Some v => _ | None => None end = ?x =>
             destruct x as [v |]; [f_equal; lia | reflexivity]
         end).
  destruct d as [| d | d | d | d | d | d | d | d | d | d];
    unfold JsString.parseInt; cbn [NilEmpty.string_of_uint JsString.trim_start];
    match goal with
    | |- context [JsString.is_space ?c] =>
        change (JsString.is_space c) with false
    end; cbv iota beta;
    match goal with
    | |- match ?x with Some v => _ | None => None end = ?x =>
        destruct x as [v |]; [f_equal; lia | reflexivity]
    end.
Qed.

Lemma parseInt_negative (d : Decimal.uint) :
  d <> Decimal.Nil ->
  JsString.parseInt (String "-" (NilEmpty.string_of_uint d))
  = Some (- Z.of_N (Pos.of_uint d)).
Proof.
  intros Hd. pose proof (digits_numeral d Hd) as Hdigits.
  destruct d as [| d | d | d | d | d | d | d | d | d | d]; [contradiction | ..];
    try (unfold JsString.parseInt; cbn [NilEmpty.string_of_uint JsString.trim_start];
         change (JsString.is_space "-") with false; cbv iota beta;
         cbn [NilEmpty.string_of_uint] in Hdigits; rewrite Hdigits;
         f_equal; lia).
  destruct d as [| d | d | d | d | d | d | d | d | d | d];
    unfold JsString.parseInt; cbn [NilEmpty.string_of_uint JsString.trim_start];
    change (JsString.is_space "-") with false; cbv iota beta;
    cbn [NilEmpty.string_of_uint] in Hdigits; rewrite Hdigits;
    f_equal; lia.
Qed.

Lemma to_uint_not_nil (p : positive) : Pos.to_uint p <> Decimal.Nil.
Proof.
  intros H. pose proof (DecimalPos.Unsigned.of_to p) as Hp.
  rewrite H in Hp. discriminate Hp.
Qed.

(** The decimal text that [toString] gives is read back by [parseInt]. *)
Lemma parseInt_toString (n : Z) :
  JsString.parseInt (JsString.toString n) = Some n.
Proof.
  unfold JsString.toString. destruct n as [| p | p]; cbn [Z.to_int NilZero.string_of_int].
  - reflexivity.
  - pose proof (to_uint_not_nil p) as Hp.
    replace (NilZero.string_of_uint (Pos.to_uint p))
      with (NilEmpty.string_of_uint (Pos.to_uint p))
      by (destruct (Pos.to_uint p); [contradiction | reflexivity ..]).
    rewrite (parseInt_unsigned _ Hp), DecimalPos.Unsigned.of_to. reflexivity.
  - pose proof (to_uint_not_nil p) as Hp.
    replace (NilZero.string_of_uint (Pos.to_uint p))
      with (NilEmpty.string_of_uint (Pos.to_uint p))
      by (destruct (Pos.to_uint p); [contradiction | reflexivity ..]).
    rewrite (parseInt_negative _ Hp), DecimalPos.Unsigned.of_to. reflexivity.
Qed.

Lemma toString_not_empty (n : Z) : JsString.toString n <> "".
Proof.
  intros H. pose proof (parseInt_toString n) as Hp. rewrite H in Hp. discriminate Hp.
Qed.

(** ** Network first, with a time-to-live *)

Lemma age_below_within (now_ms ttl : Z) (e : Response) :
  age_below now_ms (cachedAt e) ttl = true <-> within_ttl now_ms e ttl.
Proof.
  unfold age_below, within_ttl. destruct (cachedAt e) as [t |].
  - rewrite Z.ltb_lt. split.
    + intros H. exists t. split; [reflexivity | exact H].
    + intros [t' [[= <-] H]]. exact H.
  - split; [discriminate | intros [t' [[=] _]]].
Qed.

(** The time stamp that network-first writes is read back by the fallback. *)
Example stored_timestamp_read_back :
  Store.entry
    (caches (after (networkFirstWithCache osm_tile API_CACHE TTL) first_visit_world))
    API_CACHE (request_key osm_tile)
  = Some (response_with "fresh" 200 (Headers.set "sw-cached-at" "1700000000000" ∅))
  /\ cachedAt (response_with "fresh" 200 (Headers.set "sw-cached-at" "1700000000000" ∅))
     = Some 1700000000000.
Proof. split; vm_compute; reflexivity. Qed.

Lemma offline_stub_json :
  json_stub (Json.sq "{'error':'offline','elements':[]}") offline_stub.
Proof. repeat split; vm_compute; reflexivity. Qed.

(** What network-first answers when the fetch is rejected or not ok. *)
Lemma networkFirst_on_failure (request : Request) (cacheName : string) (ttlMs : Z)
    (w : World) :
  fetch_failed w request ->
  result (networkFirstWithCache request cacheName ttlMs) w
  = Normal
      match Store.entry (caches w) cacheName (request_key request) with
      | Some e => if age_below (now w) (cachedAt e) ttlMs then e else offline_stub
      | None => offline_stub
      end.
Proof.
  unfold fetch_failed, networkFirstWithCache. intros Hfail. run.
  destruct (network w request) as [resp |].
  - rewrite Hfail. run. rewrite entry_open.
    destruct (Store.entry (caches w) cacheName (request_key request)) as [e |];
      [| reflexivity].
    run. destruct (age_below (now w) (cachedAt e) ttlMs); reflexivity.
  - run. rewrite entry_open.
    destruct (Store.entry (caches w) cacheName (request_key request)) as [e |];
      [| reflexivity].
    run. destruct (age_below (now w) (cachedAt e) ttlMs); reflexivity.
Qed.

Lemma new_Response_of_ok (body_text : string) (resp : Response)
    (h : gmap string string) (w : World) :
  ok resp = true ->
  new_Response body_text (status resp) h w
  = if null_body_status (status resp) then (Throw TypeError, w)
    else (Normal (response_with body_text (status resp) h), w).
Proof.
  unfold ok, new_Response. intros Hok. apply andb_true_iff in Hok.
  destruct Hok as [Hlow Hhigh]. apply Z.leb_le in Hhigh.
  replace (status resp <=? 599) with true by (symmetry; apply Z.leb_le; lia).
  rewrite Hlow. cbn [andb negb].
  now destruct (null_body_status (status resp)).
Qed.

Lemma open_open cs name : Store.open (Store.open cs name) name = Store.open cs name.
Proof. unfold Store.open at 1. now rewrite has_open. Qed.

(** What network-first does with an ok response that the constructor
    accepts. *)
Lemma networkFirst_on_success (request : Request) (cacheName : string) (ttlMs : Z)
    (w : World) (resp : Response) :
  network w request = Some resp ->
  ok resp = true ->
  null_body_status (status resp) = false ->
  networkFirstWithCache request cacheName ttlMs w
  = (Normal resp,
     log (CallPut cacheName (request_key request) (stamped resp (now w)))
       (with_caches
          (if put_accepted request (stamped resp (now w))
           then Store.put (Store.open (caches w) cacheName) cacheName
                  (request_key request) (stamped resp (now w))
           else Store.open (caches w) cacheName)
          (log (CallOpen cacheName) (log (CallFetch request) w)))).
Proof.
  intros Hnet Hok Hbody. unfold networkFirstWithCache. run. rewrite Hnet. run.
  rewrite Hok. run. rewrite (new_Response_of_ok _ _ _ _ Hok), Hbody.
  reflexivity.
Qed.

(** What network-first does with an ok response whose status allows no
    body: the constructor throws inside the try, and the catch answers. *)
Lemma networkFirst_on_null_body (request : Request) (cacheName : string) (ttlMs : Z)
    (w : World) (resp : Response) :
  network w request = Some resp ->
  ok resp = true ->
  null_body_status (status resp) = true ->
  result (networkFirstWithCache request cacheName ttlMs) w
  = Normal
      match Store.entry (caches w) cacheName (request_key request) with
      | Some e => if age_below (now w) (cachedAt e) ttlMs then e else offline_stub
      | None => offline_stub
      end
  /\ caches (after (networkFirstWithCache request cacheName ttlMs) w)
     = Store.open (caches w) cacheName
  /\ trace (after (networkFirstWithCache request cacheName ttlMs) w)
     = (trace w ++ [CallFetch request; CallOpen cacheName; CallOpen cacheName])%list.
Proof.
  intros Hnet Hok Hbody. unfold networkFirstWithCache. run. rewrite Hnet. run.
  rewrite Hok. run. rewrite (new_Response_of_ok _ _ _ _ Hok), Hbody. run.
  rewrite open_open, !entry_open.
  destruct (Store.entry (caches w) cacheName (request_key request)) as [e |]; run;
    [destruct (age_below (now w) (cachedAt e) ttlMs) |]; run;
    (split; [reflexivity | split; [reflexivity | now rewrite <- !app_assoc]]).
Qed.

Lemma age_below_header (now_ms ttl : Z) (e : Response) :
  age_below now_ms (cachedAt e) ttl = true <-> header_within_ttl now_ms e ttl.
Proof.
  unfold age_below, header_within_ttl, header_states, cachedAt.
  destruct (Headers.get (headers e) "sw-cached-at") as [s |].
  - destruct (String.eqb s "").
    + change (JsString.parseInt "0") with (Some 0). rewrite Z.ltb_lt. split.
      * intros H. now exists 0.
      * intros (t & -> & H). exact H.
    + destruct (JsString.parseInt s) as [t |].
      * rewrite Z.ltb_lt. split.
        -- intros H. now exists t.
        -- intros (t' & [= <-] & H). exact H.
      * split; [discriminate | intros (t' & [=] & _)].
  - change (JsString.parseInt "0") with (Some 0). rewrite Z.ltb_lt. split.
    + intros H. now exists 0.
    + intros (t & -> & H). exact H.
Qed.

Lemma cachedAt_decimal (e : Response) (t : Z) :
  Headers.get (headers e) "sw-cached-at" = Some (JsString.toString t) ->
  cachedAt e = Some t.
Proof.
  intros Hget. unfold cachedAt. rewrite Hget.
  destruct (String.eqb_spec (JsString.toString t) "") as [He | _].
  - now apply toString_not_empty in He.
  - apply parseInt_toString.
Qed.

(** C1: for a geo-data request whose fetch is rejected or answers with a
    status that is not ok, network-first (API store, 30 minutes) returns the
    stored entry when the time that its sw-cached-at header states is within
    the TTL of the current time, and otherwise the synthetic JSON response
    whose body is {"error":"offline","elements":[]}; for a header that is the
    decimal text of a time t, as the worker writes it, the entry is returned
    exactly when the current time minus t is below the TTL. *)
Theorem networkFirst_failure_fallback (request : Request) (w : World) :
  fetch_failed w request ->
  (forall e,
      Store.entry (caches w) API_CACHE (request_key request) = Some e ->
      header_within_ttl (now w) e TTL ->
      result (networkFirstWithCache request API_CACHE TTL) w = Normal e)
  /\ ((forall e,
          Store.entry (caches w) API_CACHE (request_key request) = Some e ->
          ~ header_within_ttl (now w) e TTL) ->
      exists r,
        result (networkFirstWithCache request API_CACHE TTL) w = Normal r
        /\ json_stub (Json.sq "{'error':'offline','elements':[]}") r)
  /\ (forall e t,
        Store.entry (caches w) API_CACHE (request_key request) = Some e ->
        Headers.get (headers e) "sw-cached-at" = Some (JsString.toString t) ->
        (now w - t < TTL ->
         result (networkFirstWithCache request API_CACHE TTL) w = Normal e)
        /\ (TTL <= now w - t ->
            result (networkFirstWithCache request API_CACHE TTL) w = Normal offline_stub
            /\ json_stub (Json.sq "{'error':'offline','elements':[]}") offline_stub)).
Proof.
  intros Hfail. rewrite (networkFirst_on_failure _ _ _ _ Hfail). split; [| split].
  - intros e -> Hin. apply age_below_header in Hin. now rewrite Hin.
  - intros Hstale. exists offline_stub. split; [| exact offline_stub_json].
    destruct (Store.entry (caches w) API_CACHE (request_key request)) as [e |];
      [| reflexivity].
    destruct (age_below (now w) (cachedAt e) TTL) eqn:Hage; [| reflexivity].
    exfalso. apply (Hstale e eq_refl). now apply age_below_header.
  - intros e t -> Hget. rewrite (cachedAt_decimal _ _ Hget). unfold age_below. split.
    + intros Hlt. apply Z.ltb_lt in Hlt. now rewrite Hlt.
    + intros Hge. apply Z.ltb_ge in Hge. rewrite Hge.
      split; [reflexivity | exact offline_stub_json].
Qed.

(** C8: an entry without the sw-cached-at header is dated at epoch zero, so
    once the clock is at least the TTL past the epoch it is never within the
    TTL, and network-first answers a failed fetch with the offline stub
    instead of that entry. *)
Theorem missing_timestamp_is_stale (request : Request) (w : World) (e : Response) :
  Headers.get (headers e) "sw-cached-at" = None ->
  TTL <= now w ->
  cachedAt e = Some 0
  /\ ~ within_ttl (now w) e TTL
  /\ (fetch_failed w request ->
      Store.entry (caches w) API_CACHE (request_key request) = Some e ->
      exists r,
        result (networkFirstWithCache request API_CACHE TTL) w = Normal r
        /\ r = offline_stub
        /\ json_stub (Json.sq "{'error':'offline','elements':[]}") r).
Proof.
  intros Hnone Hclock.
  assert (Hat : cachedAt e = Some 0) by (unfold cachedAt; now rewrite Hnone).
  assert (Hage : age_below (now w) (cachedAt e) TTL = false).
  { rewrite Hat. unfold age_below. apply Z.ltb_ge. lia. }
  split; [exact Hat |]. split.
  - intros Hin. apply age_below_within in Hin. congruence.
  - intros Hfail Hentry. exists offline_stub.
    rewrite (networkFirst_on_failure _ _ _ _ Hfail), Hentry, Hage.
    split; [reflexivity |]. split; [reflexivity | exact offline_stub_json].
Qed.

(** ** Stale while revalidate *)

(** C3: stale-while-revalidate returns the entry of the shell store when
    there is one, whatever the network does; with no entry it returns the
    fetched response; and when the fetch is rejected it resolves to the cached
    value, which may be absent. *)
Theorem staleWhileRevalidate_result (request : Request) (w : World) :
  (forall c,
      Store.entry (caches w) CACHE_NAME (request_key request) = Some c ->
      result (staleWhileRevalidate request) w = Normal (Some c))
  /\ (Store.entry (caches w) CACHE_NAME (request_key request) = None ->
      forall resp,
        network w request = Some resp ->
        result (staleWhileRevalidate request) w = Normal (Some resp))
  /\ (network w request = None ->
      result (staleWhileRevalidate request) w
      = Normal (Store.entry (caches w) CACHE_NAME (request_key request))).
Proof.
  unfold staleWhileRevalidate. run. rewrite entry_open.
  destruct (Store.entry (caches w) CACHE_NAME (request_key request)) as [c |];
    (split; [| split]).
  - intros c' [= <-].
    destruct (network w request) as [resp |]; run; [| reflexivity].
    destruct (ok resp); reflexivity.
  - discriminate.
  - intros ->. reflexivity.
  - discriminate.
  - intros _ resp ->. run. destruct (ok resp); reflexivity.
  - intros ->. reflexivity.
Qed.

(** ** Network only, for the local server *)

Lemma server_offline_stub_json :
  json_stub (Json.sq "{'error':'Servidor offline','ok':false}") server_offline_stub.
Proof. repeat split; vm_compute; reflexivity. Qed.

(** C6: a request to a loopback host is answered by the network-only branch:
    the only host call is the fetch, the stores are left as they were, and a
    rejected fetch is answered with the JSON stub
    {"error":"Servidor offline","ok":false}. *)
Theorem loopback_network_only (self_origin : string) (request : Request) (w : World) :
  JsString.startsWith (href (url request)) "http" = true ->
  hostname (url request) = "localhost" \/ hostname (url request) = "127.0.0.1" ->
  exists p,
    onFetch self_origin request = Some p
    /\ caches (after p w) = caches w
    /\ trace (after p w) = (trace w ++ [CallFetch request])%list
    /\ (network w request = None ->
        result p w = Normal (Some server_offline_stub)
        /\ json_stub (Json.sq "{'error':'Servidor offline','ok':false}")
             server_offline_stub).
Proof.
  intros Hhttp Hhost. exists (some (networkOnly request)). split.
  - unfold onFetch. cbv zeta. rewrite Hhttp. cbn [negb].
    destruct Hhost as [-> | ->]; reflexivity.
  - run. destruct (network w request) as [resp |]; cbn.
    + repeat split; discriminate.
    + repeat split; apply server_offline_stub_json.
Qed.

(** ** Cache first *)

Lemma find_not_key cs name :
  ~ List.In name (Store.keys cs) -> Store.find cs name = None.
Proof.
  unfold Store.keys. induction cs as [| [n c] cs IH]; cbn [map List.In Store.find fst];
    [reflexivity |].
  intros Hnot. destruct (String.eqb_spec n name); [tauto |]. apply IH. tauto.
Qed.

(** With distinct names and no entry elsewhere, the lookup over all stores
    is the lookup in the one store. *)
Lemma match_all_one_store cs store key :
  List.NoDup (Store.keys cs) ->
  (forall name, name <> store -> Store.entry cs name key = None) ->
  Store.match_all cs key = Store.entry cs store key.
Proof.
  unfold Store.entry, Store.keys.
  induction cs as [| [n c] cs IH]; [reflexivity |].
  cbn [map fst Store.find Store.match_all]. intros Hnd Hother.
  apply List.NoDup_cons_iff in Hnd. destruct Hnd as [Hnot Hnd].
  assert (Hrest : forall name, name <> store ->
                    match Store.find cs name with
                    | Some c' => c' !! key
                    | None => None
                    end = None).
  { intros name Hname. specialize (Hother name Hname).
    destruct (String.eqb_spec n name) as [Heq | _]; [| exact Hother].
    rewrite <- Heq. now rewrite (find_not_key cs n Hnot). }
  destruct (String.eqb_spec n store) as [-> | Hn].
  - destruct (c !! key); [reflexivity |].
    rewrite (IH Hnd Hrest). now rewrite (find_not_key cs store Hnot).
  - specialize (Hother n Hn). rewrite String.eqb_refl in Hother. rewrite Hother.
    exact (IH Hnd Hrest).
Qed.

(** What cache-first does when no store has the request. *)
Lemma cacheFirst_on_miss (request : Request) (w : World) :
  Store.match_all (caches w) (request_key request) = None ->
  cacheFirst request w
  = match network w request with
    | Some resp =>
        (Normal resp,
         if ok resp
         then log (CallPut CACHE_NAME (request_key request) resp)
                (with_caches
                   (if put_accepted request resp
                    then Store.put (Store.open (caches w) CACHE_NAME) CACHE_NAME
                           (request_key request) resp
                    else Store.open (caches w) CACHE_NAME)
                   (log (CallOpen CACHE_NAME) (log (CallFetch request) w)))
         else log (CallFetch request) w)
    | None => (Normal (response_with "Offline" 503 ∅), log (CallFetch request) w)
    end.
Proof.
  intros Hmiss. unfold cacheFirst. run. rewrite Hmiss. run.
  destruct (network w request) as [resp |]; run; [| reflexivity].
  destruct (ok resp); reflexivity.
Qed.

(** C2, as stated, fails: the shell store is the only store and has no entry
    for the request, the network answers with an ok response, a 206, and yet
    no copy is in the shell store afterwards; the host refuses to store
    partial content and the worker does not await the write. *)
Lemma cacheFirst_copy_not_stored_counterexample :
  ~ (forall request w resp,
        Store.entry (caches w) CACHE_NAME (request_key request) = None ->
        network w request = Some resp ->
        ok resp = true ->
        Store.entry (caches (after (cacheFirst request) w)) CACHE_NAME
          (request_key request)
        = Some resp).
Proof.
  intros H.
  specialize (H leaflet_js partial_world (text_response 206 "part")
                eq_refl eq_refl eq_refl).
  vm_compute in H. discriminate H.
Qed.

(** C2, amended: when no other store than the shell store has an entry for
    the request, cache-first returns the entry of the shell store if there is
    one, with no other effect; on a miss it fetches and returns the response,
    after having issued the write of a copy into the shell store if the
    response is ok, a write that the host carries out unless it refuses the
    pair; a rejected fetch is answered with the synthetic 503 response of
    body Offline. *)
Theorem cacheFirst_shell_lookup (request : Request) (w : World) :
  only_shell_has request w ->
  (forall c,
      Store.entry (caches w) CACHE_NAME (request_key request) = Some c ->
      cacheFirst request w = (Normal c, w))
  /\ (Store.entry (caches w) CACHE_NAME (request_key request) = None ->
      (forall resp,
          network w request = Some resp ->
          result (cacheFirst request) w = Normal resp
          /\ (ok resp = true ->
              trace (after (cacheFirst request) w)
              = (trace w ++ [CallFetch request; CallOpen CACHE_NAME;
                             CallPut CACHE_NAME (request_key request) resp])%list
              /\ Store.entry (caches (after (cacheFirst request) w)) CACHE_NAME
                   (request_key request)
                 = (if put_accepted request resp then Some resp else None))
          /\ (ok resp = false ->
              after (cacheFirst request) w = log (CallFetch request) w))
      /\ (network w request = None ->
          exists r,
            result (cacheFirst request) w = Normal r
            /\ status r = 503 /\ body r = "Offline")).
Proof.
  intros [Hnd Hother].
  pose proof (match_all_one_store _ CACHE_NAME _ Hnd Hother) as Hall. split.
  - intros c Hc. unfold cacheFirst. run. now rewrite Hall, Hc.
  - intros Hmiss. rewrite Hmiss in Hall. unfold result, after.
    rewrite (cacheFirst_on_miss _ _ Hall). split.
    + intros resp ->. cbn [fst snd]. split; [reflexivity |]. split.
      * intros ->. cbn [trace caches log with_caches]. split.
        -- now rewrite <- !app_assoc.
        -- destruct (put_accepted request resp).
           ++ apply entry_put_same, has_open.
           ++ now rewrite entry_open.
      * now intros ->.
    + intros ->. cbn [fst]. eexists. repeat split.
Qed.

(** ** Every strategy answers *)

Lemma cacheFirst_returns (request : Request) (w : World) :
  exists r, result (cacheFirst request) w = Normal r.
Proof.
  unfold cacheFirst. run.
  destruct (Store.match_all (caches w) (request_key request)) as [c |]; [now exists c |].
  run. destruct (network w request) as [resp |]; run; [| now eexists].
  destruct (ok resp); now exists resp.
Qed.

Lemma networkFirst_returns (request : Request) (cacheName : string) (ttlMs : Z)
    (w : World) :
  exists r, result (networkFirstWithCache request cacheName ttlMs) w = Normal r.
Proof.
  destruct (network w request) as [resp |] eqn:Hnet.
  - destruct (ok resp) eqn:Hok.
    + destruct (null_body_status (status resp)) eqn:Hbody.
      * eexists. exact (proj1 (networkFirst_on_null_body _ _ _ _ _ Hnet Hok Hbody)).
      * exists resp. unfold result.
        now rewrite (networkFirst_on_success _ _ _ _ _ Hnet Hok Hbody).
    + eexists. apply networkFirst_on_failure. unfold fetch_failed. now rewrite Hnet.
  - eexists. apply networkFirst_on_failure. unfold fetch_failed. now rewrite Hnet.
Qed.

Lemma networkOnly_returns (request : Request) (w : World) :
  exists r, result (networkOnly request) w = Normal r.
Proof. run. destruct (network w request) as [resp |]; now eexists. Qed.

(** C5 fails on stale-while-revalidate: with nothing cached and the fetch
    rejected, the promise given to respondWith resolves to undefined, not to
    a response. *)
Theorem staleWhileRevalidate_offline_miss :
  onFetch app_origin manifest = Some (staleWhileRevalidate manifest)
  /\ Store.entry (caches offline_world) CACHE_NAME (request_key manifest) = None
  /\ network offline_world manifest = None
  /\ result (staleWhileRevalidate manifest) offline_world = Normal None.
Proof. repeat split. Qed.

(** ** Activation *)

Lemma delete_all_fields (names : list string) (w : World) :
  caches (delete_all names w)
  = List.filter (fun nc => negb (existsb (String.eqb (fst nc)) names)) (caches w)
  /\ trace (delete_all names w) = (trace w ++ map CallDelete names)%list
  /\ network (delete_all names w) = network w
  /\ now (delete_all names w) = now w.
Proof.
  unfold delete_all. revert w.
  induction names as [| n names IH]; intros w; cbn [fold_left map existsb].
  - repeat split; [| now rewrite app_nil_r].
    generalize (caches w) as cs.
    induction cs as [| nc cs IHcs]; [reflexivity |].
    cbn [List.filter negb]. now f_equal.
  - destruct (IH (log (CallDelete n) (with_caches (Store.delete (caches w) n) w)))
      as (Hc & Ht & Hn & Hnow).
    rewrite Hc, Ht, Hn, Hnow. cbn [caches trace network now log with_caches].
    repeat split; [| now rewrite <- app_assoc].
    unfold Store.delete. generalize (caches w) as cs.
    induction cs as [| nc cs IHcs]; [reflexivity |].
    cbn [List.filter]. destruct (String.eqb (fst nc) n) eqn:He; cbn [negb orb List.filter].
    + exact IHcs.
    + destruct (existsb (String.eqb (fst nc)) names); cbn [negb]; [exact IHcs |].
      now rewrite IHcs.
Qed.

Lemma promise_all_delete (names : list string) (w : World) :
  exists existed,
    Promise_all (map caches_delete names) w = (Normal existed, delete_all names w).
Proof.
  unfold delete_all. revert w.
  induction names as [| n names IH]; intros w; cbn [map Promise_all fold_left].
  - now exists [].
  - unfold caches_delete at 1.
    destruct (IH (log (CallDelete n) (with_caches (Store.delete (caches w) n) w)))
      as [bs ->].
    now eexists.
Qed.

Lemma filter_old_keys (shell_name api_name : string)
    (cs : list (string * gmap (string * string) Response)) :
  List.filter
    (fun nc => negb (existsb (String.eqb (fst nc))
                       (List.filter (is_old shell_name api_name) (Store.keys cs))))
    cs
  = kept shell_name api_name cs.
Proof.
  unfold kept. apply List.filter_ext_in. intros nc Hin. f_equal.
  destruct (is_old shell_name api_name (fst nc)) eqn:Hold.
  - apply existsb_exists. exists (fst nc). split; [| apply String.eqb_refl].
    apply List.filter_In. split; [| exact Hold].
    unfold Store.keys. now apply List.in_map.
  - destruct (existsb _ _) eqn:Hex; [| reflexivity].
    apply existsb_exists in Hex. destruct Hex as (k & Hk & Heq).
    apply List.filter_In in Hk. apply String.eqb_eq in Heq. subst k.
    destruct Hk as [_ Hk]. congruence.
Qed.

Lemma activate_with_run (shell_name api_name : string) (w : World) :
  result (activate_with shell_name api_name) w = Normal tt
  /\ caches (after (activate_with shell_name api_name) w)
     = kept shell_name api_name (caches w)
  /\ trace (after (activate_with shell_name api_name) w)
     = (trace w
        ++ map CallDelete (List.filter (is_old shell_name api_name) (Store.keys (caches w)))
        ++ [CallClaim])%list.
Proof.
  unfold activate_with, result, after, bind, caches_keys, clients_claim.
  destruct (promise_all_delete
              (List.filter (is_old shell_name api_name) (Store.keys (caches w))) w)
    as [bs ->].
  destruct (delete_all_fields
              (List.filter (is_old shell_name api_name) (Store.keys (caches w))) w)
    as (Hc & Ht & _).
  cbn [fst snd log caches trace]. rewrite Hc, Ht, filter_old_keys.
  repeat split. now rewrite app_assoc.
Qed.

Lemma is_old_false (shell_name api_name k : string) :
  is_old shell_name api_name k = false <-> k = shell_name \/ k = api_name.
Proof.
  unfold is_old, JsString.strict_eq.
  destruct (String.eqb_spec k shell_name) as [Hs | Hs];
    destruct (String.eqb_spec k api_name) as [Ha | Ha]; cbn; split; auto.
  - discriminate.
  - intros [? | ?]; contradiction.
Qed.

(** C7: activation deletes exactly the stores whose name is neither the
    shell store's nor the API store's, keeps the other stores as they are,
    and claims the clients after the deletions; from the stores v1-shell,
    v1-api and v0-shell-orphan, with v1-shell and v1-api the current names,
    only v0-shell-orphan is deleted. *)
Theorem activate_deletes_old_stores (w : World) :
  result onActivate w = Normal tt
  /\ caches (after onActivate w) = kept CACHE_NAME API_CACHE (caches w)
  /\ (forall k,
        In k (Store.keys (caches (after onActivate w)))
        <-> In k (Store.keys (caches w)) /\ (k = CACHE_NAME \/ k = API_CACHE))
  /\ (forall k,
        In (CallDelete k) (trace (after onActivate w))
        <-> In (CallDelete k) (trace w)
            \/ (In k (Store.keys (caches w)) /\ k <> CACHE_NAME /\ k <> API_CACHE))
  /\ (exists deletions,
        trace (after onActivate w) = (trace w ++ deletions ++ [CallClaim])%list
        /\ Forall (fun c => exists k, c = CallDelete k) deletions)
  /\ (forall shell api orphan,
        caches (after (activate_with "v1-shell" "v1-api") (three_stores shell api orphan w))
        = [("v1-shell", shell); ("v1-api", api)]
        /\ trace (after (activate_with "v1-shell" "v1-api") (three_stores shell api orphan w))
           = (trace w ++ [CallDelete "v0-shell-orphan"; CallClaim])%list).
Proof.
  unfold onActivate.
  destruct (activate_with_run CACHE_NAME API_CACHE w) as (Hr & Hc & Ht).
  split; [exact Hr |]. split; [exact Hc |]. split; [| split; [| split]].
  - intros k. rewrite Hc. unfold kept, Store.keys. rewrite !List.in_map_iff. split.
    + intros ([n c] & <- & Hin). apply List.filter_In in Hin.
      destruct Hin as [Hin Hold]. split.
      * now exists (n, c).
      * apply is_old_false. now apply negb_true_iff in Hold.
    + intros (([n c] & <- & Hin) & Hk). exists (n, c). split; [reflexivity |].
      apply List.filter_In. split; [exact Hin |].
      apply negb_true_iff. now apply is_old_false.
  - intros k. rewrite Ht, !List.in_app_iff, List.in_map_iff. split.
    + intros [H | [(k' & [= ->] & Hin) | [H | []]]]; [now left | | discriminate H].
      right. apply List.filter_In in Hin. destruct Hin as [Hin Hold].
      split; [exact Hin |].
      split; intros ->; revert Hold; vm_compute; discriminate.
    + intros [H | (Hin & Hs & Ha)]; [now left |]. right. left.
      exists k. split; [reflexivity |]. apply List.filter_In. split; [exact Hin |].
      destruct (is_old CACHE_NAME API_CACHE k) eqn:Hold; [reflexivity |].
      apply is_old_false in Hold. tauto.
  - eexists. split; [exact Ht |]. apply List.Forall_forall.
    intros c Hin. apply List.in_map_iff in Hin. destruct Hin as (k & <- & _).
    now exists k.
  - intros shell api orphan.
    destruct (activate_with_run "v1-shell" "v1-api" (three_stores shell api orphan w))
      as (_ & Hc1 & Ht1).
    rewrite Hc1, Ht1. split; reflexivity.
Qed.

(** ** Push notifications *)

Lemma onPush_absent (w : World) :
  onPush None w = (Normal tt, log (CallShowNotification default_notification) w).
Proof. reflexivity. Qed.

(** A payload that parses: every field is the payload's when that is truthy,
    and the default otherwise. *)
Lemma onPush_parsed (v : JSON) (w : World) :
  let payload := if Json.truthy v then v else JObject [] in
  onPush (Some (IsJson v)) w
  = (Normal tt,
     log (CallShowNotification
            {| title := Json.or_else (Json.prop payload "title") (JString "PreçoZap ⚡");
               n_body := Json.or_else (Json.prop payload "body")
                           (JString "Novos preços disponíveis!");
               icon := "/icons/icon-192x192.png";
               badge := "/icons/icon-96x96.png";
               vibrate := [200; 100; 200];
               data_url := Json.or_else (Json.prop payload "url") (JString "/") |}) w).
Proof. reflexivity. Qed.

Lemma onPush_full_payload (w : World) :
  onPush (Some (IsJson (JObject [("title", JString "X"); ("body", JString "Y");
                                 ("url", JString "/z")]))) w
  = (Normal tt,
     log (CallShowNotification
            {| title := JString "X";
               n_body := JString "Y";
               icon := "/icons/icon-192x192.png";
               badge := "/icons/icon-96x96.png";
               vibrate := [200; 100; 200];
               data_url := JString "/z" |}) w).
Proof. reflexivity. Qed.

(** C9 fails on a payload that is not JSON: reading it throws, the handler
    stops there, and no notification is shown. *)
Theorem onPush_unparseable_throws (text : string) (w : World) :
  onPush (Some (NotJson text)) w = (Throw SyntaxError, w).
Proof. reflexivity. Qed.

(** ** Only ok responses are written *)

Lemma stores_ok_open cs name : stores_ok cs -> stores_ok (Store.open cs name).
Proof.
  unfold stores_ok, Store.open. intros H.
  destruct (Store.has cs name); [exact H |].
  apply Forall_app. split; [exact H |].
  constructor; [apply map_Forall_empty | constructor].
Qed.

Lemma stores_ok_put cs name key r :
  ok r = true -> stores_ok cs -> stores_ok (Store.put cs name key r).
Proof.
  unfold stores_ok. intros Hok H.
  induction H as [| [n c] cs Hc Hcs IH]; cbn [Store.put]; [constructor |].
  destruct (String.eqb n name).
  - constructor; [| exact Hcs]. cbn [snd] in *. now apply map_Forall_insert_2.
  - constructor; [exact Hc | exact IH].
Qed.

Lemma stores_ok_put_if (b : bool) cs name key r :
  ok r = true -> stores_ok cs ->
  stores_ok (if b then Store.put cs name key r else cs).
Proof. intros Hok H. destruct b; [now apply stores_ok_put | exact H]. Qed.

Lemma cacheFirst_writes (request : Request) : writes_only_ok (cacheFirst request).
Proof.
  intros w. unfold cacheFirst. run.
  destruct (Store.match_all (caches w) (request_key request)) as [c |].
  - split; [appended (@nil HostCall) | auto].
  - run. destruct (network w request) as [resp |]; run.
    + destruct (ok resp) eqn:Hok; run.
      * split.
        -- appended [CallFetch request; CallOpen CACHE_NAME;
                     CallPut CACHE_NAME (request_key request) resp].
        -- intros H. now apply stores_ok_put_if, stores_ok_open.
      * split; [appended [CallFetch request] | auto].
    + split; [appended [CallFetch request] | auto].
Qed.

Lemma staleWhileRevalidate_writes (request : Request) :
  writes_only_ok (staleWhileRevalidate request).
Proof.
  intros w. unfold staleWhileRevalidate. run.
  destruct (network w request) as [resp |]; run.
  - destruct (ok resp) eqn:Hok; run.
    + split.
      * appended [CallOpen CACHE_NAME; CallFetch request;
                  CallPut CACHE_NAME (request_key request) resp].
      * intros H. now apply stores_ok_put_if, stores_ok_open.
    + split; [appended [CallOpen CACHE_NAME; CallFetch request] |].
      intros H. now apply stores_ok_open.
  - split; [appended [CallOpen CACHE_NAME; CallFetch request] |].
    intros H. now apply stores_ok_open.
Qed.

Lemma networkFirst_writes (request : Request) (cacheName : string) (ttlMs : Z) :
  writes_only_ok (networkFirstWithCache request cacheName ttlMs).
Proof.
  intros w.
  destruct (network w request) as [resp |] eqn:Hnet;
    [destruct (ok resp) eqn:Hok;
     [destruct (null_body_status (status resp)) eqn:Hbody |] |].
  - destruct (networkFirst_on_null_body request cacheName ttlMs w resp Hnet Hok Hbody)
      as (_ & Hc & Ht).
    split.
    + eexists. split; [exact Ht | repeat constructor].
    + intros H. rewrite Hc. now apply stores_ok_open.
  - unfold after. rewrite (networkFirst_on_success _ _ _ _ _ Hnet Hok Hbody).
    cbn [snd caches trace log with_caches]. split.
    + eexists [CallFetch request; CallOpen cacheName; CallPut cacheName _ _].
      split; [now rewrite <- !app_assoc |].
      repeat constructor. exact Hok.
    + intros H. apply stores_ok_put_if; [exact Hok |].
      now apply stores_ok_open.
  - unfold networkFirstWithCache. run. rewrite Hnet. run. rewrite Hok. run. split.
    + destruct (Store.entry _ _ _) as [e |]; run;
        [destruct (age_below _ _ _) |];
        appended [CallFetch request; CallOpen cacheName].
    + intros H.
      destruct (Store.entry _ _ _) as [e |]; run;
        [destruct (age_below _ _ _) |]; run; now apply stores_ok_open.
  - unfold networkFirstWithCache. run. rewrite Hnet. run. split.
    + destruct (Store.entry _ _ _) as [e |]; run;
        [destruct (age_below _ _ _) |];
        appended [CallFetch request; CallOpen cacheName].
    + intros H.
      destruct (Store.entry _ _ _) as [e |]; run;
        [destruct (age_below _ _ _) |]; run; now apply stores_ok_open.
Qed.

Lemma networkOnly_writes (request : Request) : writes_only_ok (networkOnly request).
Proof.
  intros w. run.
  destruct (network w request) as [resp |];
    (split; [appended [CallFetch request] | auto]).
Qed.

Lemma some_writes {A} (c : M A) : writes_only_ok c -> writes_only_ok (some c).
Proof.
  intros H w. specialize (H w). unfold some, after, bind, ret in *.
  destruct (c w) as [[a | e] w']; exact H.
Qed.

(** C10: each of the three writing strategies only ever writes ok responses
    into a store, and whatever the fetch handler does for a request keeps every
    entry of every store an ok response. *)
Theorem store_writes_are_ok (self_origin : string) (request : Request) :
  writes_only_ok (cacheFirst request)
  /\ writes_only_ok (staleWhileRevalidate request)
  /\ (forall cacheName ttlMs,
        writes_only_ok (networkFirstWithCache request cacheName ttlMs))
  /\ (forall p, onFetch self_origin request = Some p -> writes_only_ok p).
Proof.
  split; [apply cacheFirst_writes |].
  split; [apply staleWhileRevalidate_writes |].
  split; [intros; apply networkFirst_writes |].
  intros p Hp.
  destruct (onFetch_cases _ _ _ Hp) as [-> | [-> | [-> | ->]]].
  - apply some_writes, networkOnly_writes.
  - apply some_writes, networkFirst_writes.
  - apply some_writes, cacheFirst_writes.
  - apply staleWhileRevalidate_writes.
Qed.

(** ** The statements at concrete requests and worlds *)

(** A tile stored a thousand seconds before the failed fetch is returned; the
    same tile an hour later is not, and the stub is. *)
Lemma networkFirst_failure_fallback_witness :
  result (networkFirstWithCache osm_tile API_CACHE TTL)
    (api_world (stored_tile 1699999000000) 1700000000000)
  = Normal (stored_tile 1699999000000)
  /\ (exists r,
        result (networkFirstWithCache osm_tile API_CACHE TTL)
          (api_world (stored_tile 1699999000000) 1700003600000)
        = Normal r
        /\ json_stub (Json.sq "{'error':'offline','elements':[]}") r)
  /\ result (networkFirstWithCache osm_tile API_CACHE TTL)
       (api_world (stored_tile 1699999000000) 1700003600000)
     = Normal offline_stub.
Proof.
  split; [| split].
  - apply (proj1 (networkFirst_failure_fallback osm_tile
                    (api_world (stored_tile 1699999000000) 1700000000000) I)
             (stored_tile 1699999000000) eq_refl).
    exists 1699999000000. split; vm_compute; reflexivity.
  - apply (proj1 (proj2 (networkFirst_failure_fallback osm_tile
                    (api_world (stored_tile 1699999000000) 1700003600000) I))).
    intros e Hentry (t & Ht & Hlt).
    vm_compute in Hentry. injection Hentry as <-.
    vm_compute in Ht. injection Ht as <-.
    vm_compute in Hlt. discriminate Hlt.
  - apply (proj2 (proj2 (networkFirst_failure_fallback osm_tile
                    (api_world (stored_tile 1699999000000) 1700003600000) I))
             (stored_tile 1699999000000) 1699999000000 eq_refl eq_refl).
    vm_compute. discriminate.
Defined.

(** An entry without the header, read today with the network down. *)
Lemma missing_timestamp_is_stale_witness :
  cachedAt (text_response 200 "tile") = Some 0
  /\ exists r,
      result (networkFirstWithCache osm_tile API_CACHE TTL)
        (api_world (text_response 200 "tile") 1700000000000)
      = Normal r
      /\ r = offline_stub
      /\ json_stub (Json.sq "{'error':'offline','elements':[]}") r.
Proof.
  assert (Hclock : TTL <= now (api_world (text_response 200 "tile") 1700000000000))
    by (vm_compute; discriminate).
  destruct (missing_timestamp_is_stale osm_tile
              (api_world (text_response 200 "tile") 1700000000000)
              (text_response 200 "tile") eq_refl Hclock) as (Hat & _ & Hstub).
  split; [exact Hat |]. apply Hstub; [exact I | reflexivity].
Defined.

(** The manifest: cached and the network up, first visit, and offline with
    nothing cached. *)
Lemma staleWhileRevalidate_result_witness :
  result (staleWhileRevalidate manifest) shell_world
  = Normal (Some (text_response 200 "cached"))
  /\ result (staleWhileRevalidate manifest) first_visit_world
     = Normal (Some (text_response 200 "fresh"))
  /\ result (staleWhileRevalidate manifest) offline_world = Normal None.
Proof.
  split; [| split].
  - apply (proj1 (staleWhileRevalidate_result manifest shell_world)). reflexivity.
  - apply (proj1 (proj2 (staleWhileRevalidate_result manifest first_visit_world)));
      reflexivity.
  - apply (proj2 (proj2 (staleWhileRevalidate_result manifest offline_world))).
    reflexivity.
Defined.

(** A request to the local server while it is down. *)
Lemma loopback_network_only_witness :
  exists p,
    onFetch app_origin local_api = Some p
    /\ caches (after p offline_world) = caches offline_world
    /\ trace (after p offline_world) = [CallFetch local_api]
    /\ result p offline_world = Normal (Some server_offline_stub).
Proof.
  destruct (loopback_network_only app_origin local_api offline_world eq_refl
              (or_introl eq_refl)) as (p & Hp & Hc & Ht & Hr).
  exists p. split; [exact Hp |]. split; [exact Hc |]. split; [exact Ht |].
  exact (proj1 (Hr eq_refl)).
Defined.

(** The shell store alone, holding the manifest or nothing. *)
Lemma only_shell_has_single (request : Request) (w : World)
    (m : gmap (string * string) Response) :
  caches w = [(CACHE_NAME, m)] -> only_shell_has request w.
Proof.
  intros Hc. unfold only_shell_has. rewrite Hc. split.
  - repeat constructor. intros [].
  - intros name Hname. unfold Store.entry. cbn [Store.find].
    destruct (String.eqb_spec CACHE_NAME name); [congruence | reflexivity].
Qed.

(** The manifest is found in the shell store; on a first visit the script
    is fetched and stored; partial content is returned and not stored;
    offline with nothing stored gives the 503. *)
Lemma cacheFirst_shell_lookup_witness :
  cacheFirst manifest shell_world = (Normal (text_response 200 "cached"), shell_world)
  /\ (result (cacheFirst leaflet_js) first_visit_world
      = Normal (text_response 200 "fresh")
      /\ Store.entry (caches (after (cacheFirst leaflet_js) first_visit_world))
           CACHE_NAME (request_key leaflet_js)
         = Some (text_response 200 "fresh"))
  /\ Store.entry (caches (after (cacheFirst leaflet_js) partial_world))
       CACHE_NAME (request_key leaflet_js)
     = None
  /\ exists r,
      result (cacheFirst leaflet_js) offline_world = Normal r
      /\ status r = 503 /\ body r = "Offline".
Proof.
  split; [| split; [| split]].
  - apply (proj1 (cacheFirst_shell_lookup manifest shell_world
                    (only_shell_has_single manifest shell_world _ eq_refl))).
    reflexivity.
  - assert (Hfirst : only_shell_has leaflet_js first_visit_world).
    { split; [constructor | reflexivity]. }
    destruct (proj1 (proj2 (cacheFirst_shell_lookup leaflet_js first_visit_world Hfirst)
                       eq_refl)
                (text_response 200 "fresh") eq_refl) as (Hr & Hput & _).
    split; [exact Hr |]. exact (proj2 (Hput eq_refl)).
  - destruct (proj1 (proj2 (cacheFirst_shell_lookup leaflet_js partial_world
                              (only_shell_has_single leaflet_js partial_world _ eq_refl))
                       eq_refl)
                (text_response 206 "part") eq_refl) as (_ & Hput & _).
    exact (proj2 (Hput eq_refl)).
  - apply (proj2 (proj2 (cacheFirst_shell_lookup leaflet_js offline_world
                           (only_shell_has_single leaflet_js offline_world _ eq_refl))
                    eq_refl)).
    reflexivity.
Defined.

(** The stores after a first cache-first visit and a first network-first
    visit hold ok responses only. *)
Lemma store_writes_are_ok_witness :
  stores_ok (caches (after (cacheFirst leaflet_js) first_visit_world))
  /\ stores_ok (caches (after (some (networkFirstWithCache osm_tile API_CACHE TTL))
                          first_visit_world)).
Proof.
  split.
  - apply (proj1 (store_writes_are_ok app_origin leaflet_js) first_visit_world).
    constructor.
  - apply (proj2 (proj2 (proj2 (store_writes_are_ok app_origin osm_tile)))
             (some (networkFirstWithCache osm_tile API_CACHE TTL)) eq_refl
             first_visit_world).
    constructor.
Defined.

(** * Further properties of the worker *)

(** ** The copy that network-first stores *)

Lemma stamped_header (resp : Response) (t : Z) :
  Headers.get (headers (stamped resp t)) "sw-cached-at" = Some (JsString.toString t).
Proof.
  unfold stamped, response_with, Headers.get, Headers.has, Headers.get, Headers.set.
  cbn [headers].
  destruct (_ !! JsString.lower "Content-Type").
  - apply lookup_insert_eq.
  - rewrite lookup_insert_ne by (vm_compute; discriminate). apply lookup_insert_eq.
Qed.

Lemma cachedAt_stamped (resp : Response) (t : Z) : cachedAt (stamped resp t) = Some t.
Proof.
  unfold cachedAt. rewrite stamped_header.
  destruct (String.eqb_spec (JsString.toString t) "") as [He | _].
  - now apply toString_not_empty in He.
  - apply parseInt_toString.
Qed.


(** ** Network first, when the fetch succeeds *)

Lemma decode_ascii (s : string) :
  ascii_only s = true -> Utf8.decode s 0 128 191 "" = s.
Proof.
  induction s as [| c s IH]; cbn [ascii_only Utf8.decode]; [reflexivity |].
  intros H. apply andb_true_iff in H. destruct H as [Hc Hs].
  unfold Utf8.lead. rewrite Hc. now rewrite (IH Hs).
Qed.

Lemma text_ascii (s : string) : ascii_only s = true -> Utf8.text s = s.
Proof.
  intros H. unfold Utf8.text.
  assert (Hbom : Utf8.strip_bom s = s).
  { destruct s as [| a [| b [| c rest]]]; try reflexivity.
    cbn [ascii_only] in H. apply andb_true_iff in H. destruct H as [Ha _].
    unfold Utf8.strip_bom.
    destruct (Nat.eqb_spec (nat_of_ascii a) 239) as [He | _]; [| reflexivity].
    rewrite He in Ha. discriminate Ha. }
  rewrite Hbom. now apply decode_ascii.
Qed.

(** A body that is not UTF-8, such as the first bytes of a PNG image, is not
    stored as it came. *)
Example text_png :
  Utf8.text (String (ascii_of_nat 137) "PNG") = Utf8.replacement ++ "PNG".
Proof. reflexivity. Qed.

Lemma stamped_other_header (resp : Response) (t : Z) (name : string) :
  JsString.lower name <> "sw-cached-at" ->
  JsString.lower name <> "content-type" ->
  Headers.get (headers (stamped resp t)) name = Headers.get (headers resp) name.
Proof.
  intros Hts Hct.
  unfold stamped, response_with, Headers.get, Headers.has, Headers.get, Headers.set.
  cbn [headers].
  change (JsString.lower "sw-cached-at") with "sw-cached-at".
  change (JsString.lower "Content-Type") with "content-type".
  destruct (_ !! "content-type").
  - now rewrite lookup_insert_ne by congruence.
  - now rewrite !lookup_insert_ne by congruence.
Qed.

(** The host judges the stamped copy as it would the fetched response. *)
Lemma put_accepted_stamped (request : Request) (resp : Response) (t : Z) :
  put_accepted request (stamped resp t) = put_accepted request resp.
Proof.
  unfold put_accepted, vary_star.
  rewrite stamped_other_header by (vm_compute; discriminate).
  reflexivity.
Qed.

(** X2: when the fetch answers with an ok response whose status allows a
    body, network-first returns that response itself, after having issued the
    write of a copy into the named store: a copy of the same status, with
    the body as its UTF-8 text (the body itself when it is ASCII), stamped
    with the current time and keeping every other header; the host carries
    the write out unless it refuses the request or the response.  When the
    status allows no body (204, 205) the constructor throws and the worker
    answers as if the fetch had been rejected, and writes nothing. *)
Theorem networkFirst_success (request : Request) (cacheName : string) (ttlMs : Z)
    (w : World) (resp : Response) :
  network w request = Some resp ->
  ok resp = true ->
  (null_body_status (status resp) = false ->
   result (networkFirstWithCache request cacheName ttlMs) w = Normal resp
   /\ trace (after (networkFirstWithCache request cacheName ttlMs) w)
      = (trace w ++ [CallFetch request; CallOpen cacheName;
                     CallPut cacheName (request_key request) (stamped resp (now w))])%list
   /\ Store.entry (caches (after (networkFirstWithCache request cacheName ttlMs) w))
        cacheName (request_key request)
      = (if put_accepted request resp then Some (stamped resp (now w))
         else Store.entry (caches w) cacheName (request_key request))
   /\ status (stamped resp (now w)) = status resp
   /\ body (stamped resp (now w)) = Utf8.text (body resp)
   /\ (ascii_only (body resp) = true -> body (stamped resp (now w)) = body resp)
   /\ (forall name,
         JsString.lower name <> "sw-cached-at" ->
         JsString.lower name <> "content-type" ->
         Headers.get (headers (stamped resp (now w))) name
         = Headers.get (headers resp) name))
  /\ (null_body_status (status resp) = true ->
      result (networkFirstWithCache request cacheName ttlMs) w
      = result (networkFirstWithCache request cacheName ttlMs)
          (with_network (fun _ => None) w)
      /\ caches (after (networkFirstWithCache request cacheName ttlMs) w)
         = Store.open (caches w) cacheName
      /\ trace (after (networkFirstWithCache request cacheName ttlMs) w)
         = (trace w ++ [CallFetch request; CallOpen cacheName; CallOpen cacheName])%list).
Proof.
  intros Hnet Hok. split.
  - intros Hbody. unfold result, after.
    rewrite (networkFirst_on_success _ _ _ _ _ Hnet Hok Hbody).
    cbn [fst snd caches trace log with_caches].
    split; [reflexivity |]. split; [now rewrite <- !app_assoc |]. split.
    { rewrite put_accepted_stamped. destruct (put_accepted request resp).
      - apply entry_put_same, has_open.
      - apply entry_open. }
    split; [reflexivity |]. split; [reflexivity |]. split.
    + intros Hascii. unfold stamped, response_with, text. cbn [body].
      now apply text_ascii.
    + intros name. apply stamped_other_header.
  - intros Hbody.
    destruct (networkFirst_on_null_body request cacheName ttlMs w resp Hnet Hok Hbody)
      as (Hr & Hc & Ht).
    split; [| split; [exact Hc | exact Ht]].
    rewrite Hr. symmetry. now rewrite networkFirst_on_failure by exact I.
Qed.

(** X3: a response that network-first fetched with an ok status allowing a
    body, and whose write the host accepted, is what network-first answers at
    a later time with the network down, as long as less than the TTL has
    passed; from then on it answers with the offline stub.  When the host
    refused the write, the later answer is the one that would have been given
    without the earlier fetch. *)
Theorem networkFirst_store_then_offline (request : Request) (cacheName : string)
    (ttlMs : Z) (w : World) (resp : Response) (later : Z) :
  network w request = Some resp ->
  ok resp = true ->
  null_body_status (status resp) = false ->
  result (networkFirstWithCache request cacheName ttlMs)
    (later_offline later (after (networkFirstWithCache request cacheName ttlMs) w))
  = (if put_accepted request resp
     then Normal (if later - now w <? ttlMs then stamped resp (now w) else offline_stub)
     else result (networkFirstWithCache request cacheName ttlMs) (later_offline later w)).
Proof.
  intros Hnet Hok Hbody.
  rewrite !networkFirst_on_failure by exact I.
  unfold after. rewrite (networkFirst_on_success _ _ _ _ _ Hnet Hok Hbody).
  cbn [snd later_offline caches now log with_caches].
  rewrite put_accepted_stamped. destruct (put_accepted request resp).
  - rewrite entry_put_same by apply has_open.
    now rewrite cachedAt_stamped.
  - now rewrite entry_open.
Qed.

(** ** Cache first, across requests *)

Lemma match_all_open cs name key :
  Store.match_all cs key = None -> Store.match_all (Store.open cs name) key = None.
Proof.
  unfold Store.open. destruct (Store.has cs name); [auto |].
  induction cs as [| [n c] cs IH]; cbn [app Store.match_all].
  - intros _. now rewrite lookup_empty.
  - destruct (c !! key); [discriminate | exact IH].
Qed.

Lemma match_all_put cs name key r :
  Store.match_all cs key = None ->
  Store.has cs name = true ->
  Store.match_all (Store.put cs name key r) key = Some r.
Proof.
  unfold Store.has.
  induction cs as [| [n c] cs IH]; cbn [Store.match_all Store.put Store.find];
    [discriminate |].
  destruct (c !! key) eqn:Hc; [discriminate |]. intros Hrest.
  destruct (String.eqb n name); cbn [Store.match_all].
  - intros _. now rewrite lookup_insert_eq.
  - intros Hhas. rewrite Hc. now apply IH.
Qed.

(** X4: once cache-first has fetched an ok response for a request found in
    no store, and the host has accepted the write, the same request is
    answered from the store with that response and with no host call at all,
    whatever the network would do.  When the host refused the write, no store
    has the request afterwards either, and the next request fetches again. *)
Theorem cacheFirst_second_request (request : Request) (w : World) (resp : Response)
    (net : Request -> option Response) :
  Store.match_all (caches w) (request_key request) = None ->
  network w request = Some resp ->
  ok resp = true ->
  (put_accepted request resp = true ->
   cacheFirst request (with_network net (after (cacheFirst request) w))
   = (Normal resp, with_network net (after (cacheFirst request) w)))
  /\ (put_accepted request resp = false ->
      Store.match_all (caches (after (cacheFirst request) w)) (request_key request)
      = None).
Proof.
  intros Hmiss Hnet Hok. unfold after.
  rewrite (cacheFirst_on_miss _ _ Hmiss), Hnet, Hok. cbn [snd]. split.
  - intros Hput. rewrite Hput. unfold cacheFirst. run.
    cbn [with_network caches log with_caches].
    rewrite match_all_put; [reflexivity | now apply match_all_open | apply has_open].
  - intros Hput. rewrite Hput. cbn [caches log with_caches].
    now apply match_all_open.
Qed.

(** X5: when no store has the request and the fetch is rejected or answers
    with a status that is not ok, cache-first writes nothing: the only host
    call is the fetch, the stores are as before, and so the next request
    fetches again. *)
Theorem cacheFirst_failure_not_stored (request : Request) (w : World) :
  Store.match_all (caches w) (request_key request) = None ->
  fetch_failed w request ->
  after (cacheFirst request) w = log (CallFetch request) w
  /\ caches (after (cacheFirst request) w) = caches w
  /\ Store.match_all (caches (after (cacheFirst request) w)) (request_key request) = None
  /\ after (cacheFirst request) (after (cacheFirst request) w)
     = log (CallFetch request) (log (CallFetch request) w).
Proof.
  intros Hmiss Hfail. unfold fetch_failed in Hfail.
  assert (Hstep : forall w', caches w' = caches w -> network w' = network w ->
                             after (cacheFirst request) w' = log (CallFetch request) w').
  { intros w' Hc Hn. unfold cacheFirst. run. rewrite Hc, Hmiss. run. rewrite Hn.
    destruct (network w request) as [resp |]; run; [| reflexivity].
    now rewrite Hfail. }
  rewrite (Hstep w eq_refl eq_refl). cbn [caches log].
  split; [reflexivity |]. split; [reflexivity |]. split; [exact Hmiss |].
  now apply Hstep.
Qed.

(** ** Stale while revalidate, across requests *)

Lemma staleWhileRevalidate_offline (request : Request) (w : World) :
  network w request = None ->
  result (staleWhileRevalidate request) w
  = Normal (Store.entry (caches w) CACHE_NAME (request_key request)).
Proof.
  intros Hnet. unfold staleWhileRevalidate. run. rewrite entry_open, Hnet.
  now destruct (Store.entry (caches w) CACHE_NAME (request_key request)).
Qed.

(** X6: whatever stale-while-revalidate returns, an ok response from the
    network whose write the host accepts replaces the entry of the shell
    store, so the next request gets it even with the network down; an ok
    response whose write the host refuses, a response that is not ok, or a
    rejected fetch, leaves the entry as it was. *)
Theorem staleWhileRevalidate_refreshes (request : Request) (w : World) :
  (forall resp,
      network w request = Some resp ->
      ok resp = true ->
      (put_accepted request resp = true ->
       Store.entry (caches (after (staleWhileRevalidate request) w)) CACHE_NAME
         (request_key request) = Some resp
       /\ forall later,
           result (staleWhileRevalidate request)
             (later_offline later (after (staleWhileRevalidate request) w))
           = Normal (Some resp))
      /\ (put_accepted request resp = false ->
          Store.entry (caches (after (staleWhileRevalidate request) w)) CACHE_NAME
            (request_key request)
          = Store.entry (caches w) CACHE_NAME (request_key request)))
  /\ (fetch_failed w request ->
      Store.entry (caches (after (staleWhileRevalidate request) w)) CACHE_NAME
        (request_key request)
      = Store.entry (caches w) CACHE_NAME (request_key request)).
Proof.
  split.
  - intros resp Hnet Hok.
    assert (Hentry : Store.entry (caches (after (staleWhileRevalidate request) w))
                       CACHE_NAME (request_key request)
                     = if put_accepted request resp then Some resp
                       else Store.entry (caches w) CACHE_NAME (request_key request)).
    { unfold staleWhileRevalidate. run. rewrite Hnet. run. rewrite Hok. run.
      destruct (put_accepted request resp);
        [apply entry_put_same, has_open | apply entry_open]. }
    split.
    + intros Hput. rewrite Hput in Hentry. split; [exact Hentry |]. intros later.
      rewrite staleWhileRevalidate_offline by reflexivity.
      cbn [later_offline caches]. now rewrite Hentry.
    + intros Hput. now rewrite Hput in Hentry.
  - unfold fetch_failed. intros Hfail. unfold staleWhileRevalidate. run.
    destruct (network w request) as [resp |]; run.
    + rewrite Hfail. run. apply entry_open.
    + apply entry_open.
Qed.

(** X7: stale-while-revalidate resolves to undefined exactly when the shell
    store has no entry for the request and the fetch is rejected; in every
    other case it resolves to a response. *)
Theorem staleWhileRevalidate_undefined_iff (request : Request) (w : World) :
  (result (staleWhileRevalidate request) w = Normal None
   <-> Store.entry (caches w) CACHE_NAME (request_key request) = None
       /\ network w request = None)
  /\ exists v, result (staleWhileRevalidate request) w = Normal v.
Proof.
  unfold staleWhileRevalidate. run. rewrite entry_open.
  destruct (Store.entry (caches w) CACHE_NAME (request_key request)) as [c |];
    destruct (network w request) as [resp |]; run;
    try destruct (ok resp); run;
    (split; [split; [intros [=] | intros [? ?]; discriminate] | eauto])
    || (split; [split; [intros _; split; reflexivity | reflexivity] | eauto]).
Qed.

(** ** What handling a request leaves alone *)

Lemma find_open_other cs n name :
  name <> n -> Store.find (Store.open cs n) name = Store.find cs name.
Proof.
  intros Hne. unfold Store.open. destruct (Store.has cs n); [reflexivity |].
  rewrite find_app_new. destruct (Store.find cs name); [reflexivity |].
  destruct (String.eqb_spec n name); [congruence | reflexivity].
Qed.

Lemma find_put_other cs n key r name :
  name <> n -> Store.find (Store.put cs n key r) name = Store.find cs name.
Proof.
  intros Hne. induction cs as [| [n0 c] cs IH]; cbn [Store.put Store.find]; [reflexivity |].
  destruct (String.eqb_spec n0 n) as [-> | Hn]; cbn [Store.find].
  - destruct (String.eqb_spec n name); [congruence | reflexivity].
  - destruct (String.eqb n0 name); [reflexivity | exact IH].
Qed.

Lemma has_open_mono cs n name :
  Store.has cs name = true -> Store.has (Store.open cs n) name = true.
Proof.
  unfold Store.open. destruct (Store.has cs n); [auto |].
  unfold Store.has. rewrite find_app_new.
  now destruct (Store.find cs name).
Qed.

Lemma has_put cs n key r name :
  Store.has (Store.put cs n key r) name = Store.has cs name.
Proof.
  unfold Store.has.
  induction cs as [| [n0 c] cs IH]; cbn [Store.put Store.find]; [reflexivity |].
  destruct (String.eqb_spec n0 n) as [-> | Hn]; cbn [Store.find].
  - now destruct (String.eqb n name).
  - destruct (String.eqb n0 name); [reflexivity | exact IH].
Qed.

Lemma entry_put_other_key cs n key r name k :
  k <> key -> Store.entry (Store.put cs n key r) name k = Store.entry cs name k.
Proof.
  intros Hne. unfold Store.entry.
  induction cs as [| [n0 c] cs IH]; cbn [Store.put Store.find]; [reflexivity |].
  destruct (String.eqb_spec n0 n) as [-> | Hn]; cbn [Store.find].
  - destruct (String.eqb n name); [| reflexivity].
    now rewrite lookup_insert_ne by congruence.
  - destruct (String.eqb n0 name); [reflexivity | exact IH].
Qed.




Lemma same_other_stores_refl n cs : same_other_stores n cs cs.
Proof. split; auto. Qed.

Lemma same_other_stores_open n cs : same_other_stores n cs (Store.open cs n).
Proof.
  split.
  - intros name Hne. now apply find_open_other.
  - intros name. apply has_open_mono.
Qed.

Lemma same_other_stores_write n cs key r :
  same_other_stores n cs (Store.put (Store.open cs n) n key r).
Proof.
  split.
  - intros name Hne. now rewrite find_put_other, find_open_other.
  - intros name Hhas. rewrite has_put. now apply has_open_mono.
Qed.

(** The storage after each strategy is the one before, or that one with the
    strategy's store opened, or opened and written under the request's key. *)
Lemma cacheFirst_storage (request : Request) (w : World) :
  caches (after (cacheFirst request) w) = caches w
  \/ caches (after (cacheFirst request) w) = Store.open (caches w) CACHE_NAME
  \/ exists r,
      caches (after (cacheFirst request) w)
      = Store.put (Store.open (caches w) CACHE_NAME) CACHE_NAME (request_key request) r.
Proof.
  unfold cacheFirst. run.
  destruct (Store.match_all (caches w) (request_key request)); [now left |].
  run. destruct (network w request) as [resp |]; run; [| now left].
  destruct (ok resp); run; [| now left].
  destruct (put_accepted request resp); [right; right; now exists resp | right; now left].
Qed.

Lemma staleWhileRevalidate_storage (request : Request) (w : World) :
  caches (after (staleWhileRevalidate request) w) = Store.open (caches w) CACHE_NAME
  \/ exists r,
      caches (after (staleWhileRevalidate request) w)
      = Store.put (Store.open (caches w) CACHE_NAME) CACHE_NAME (request_key request) r.
Proof.
  unfold staleWhileRevalidate. run.
  destruct (network w request) as [resp |]; run; [| now left].
  destruct (ok resp); run; [| now left].
  destruct (put_accepted request resp); [right; now exists resp | now left].
Qed.

Lemma networkFirst_storage (request : Request) (cacheName : string) (ttlMs : Z)
    (w : World) :
  caches (after (networkFirstWithCache request cacheName ttlMs) w)
  = Store.open (caches w) cacheName
  \/ exists r,
      caches (after (networkFirstWithCache request cacheName ttlMs) w)
      = Store.put (Store.open (caches w) cacheName) cacheName (request_key request) r.
Proof.
  destruct (network w request) as [resp |] eqn:Hnet;
    [destruct (ok resp) eqn:Hok;
     [destruct (null_body_status (status resp)) eqn:Hbody |] |].
  - left. exact (proj1 (proj2 (networkFirst_on_null_body _ _ _ _ _ Hnet Hok Hbody))).
  - unfold after. rewrite (networkFirst_on_success _ _ _ _ _ Hnet Hok Hbody).
    cbn [snd caches log with_caches].
    destruct (put_accepted _ _); [right; now eexists | now left].
  - unfold networkFirstWithCache. run. rewrite Hnet. run. rewrite Hok. run.
    left. destruct (Store.entry _ _ _); run; [destruct (age_below _ _ _) |]; reflexivity.
  - unfold networkFirstWithCache. run. rewrite Hnet. run.
    left. destruct (Store.entry _ _ _); run; [destruct (age_below _ _ _) |]; reflexivity.
Qed.

Lemma networkOnly_storage (request : Request) (w : World) :
  caches (after (networkOnly request) w) = caches w.
Proof. run. now destruct (network w request). Qed.



(** X9: cache-first and stale-while-revalidate leave every store but the
    shell store as it was, network-first every store but the one it is given,
    and network-only all of them; none of them makes a store vanish. *)
Theorem strategies_keep_other_stores (request : Request) (w : World) :
  same_other_stores CACHE_NAME (caches w) (caches (after (cacheFirst request) w))
  /\ same_other_stores CACHE_NAME (caches w)
       (caches (after (staleWhileRevalidate request) w))
  /\ (forall cacheName ttlMs,
        same_other_stores cacheName (caches w)
          (caches (after (networkFirstWithCache request cacheName ttlMs) w)))
  /\ caches (after (networkOnly request) w) = caches w.
Proof.
  split; [| split; [| split]].
  - destruct (cacheFirst_storage request w) as [-> | [-> | [r ->]]];
      [apply same_other_stores_refl | apply same_other_stores_open
      | apply same_other_stores_write].
  - destruct (staleWhileRevalidate_storage request w) as [-> | [r ->]];
      [apply same_other_stores_open | apply same_other_stores_write].
  - intros cacheName ttlMs.
    destruct (networkFirst_storage request cacheName ttlMs w) as [-> | [r ->]];
      [apply same_other_stores_open | apply same_other_stores_write].
  - apply networkOnly_storage.
Qed.

(** ** No strategy with a fallback rejects *)

(** X10: cache-first, network-first and network-only resolve with a response
    for every content of the stores and every outcome of the fetch: they
    never reject and never resolve to undefined. *)
Theorem fallback_strategies_answer (request : Request) (w : World) :
  (exists r, result (cacheFirst request) w = Normal r)
  /\ (forall cacheName ttlMs,
        exists r, result (networkFirstWithCache request cacheName ttlMs) w = Normal r)
  /\ (exists r, result (networkOnly request) w = Normal r)
  /\ (network w request = None ->
      Store.match_all (caches w) (request_key request) = None ->
      result (cacheFirst request) w = Normal (response_with "Offline" 503 ∅)
      /\ result (networkOnly request) w = Normal server_offline_stub
      /\ forall ttlMs,
          Store.entry (caches w) API_CACHE (request_key request) = None ->
          result (networkFirstWithCache request API_CACHE ttlMs) w = Normal offline_stub).
Proof.
  split; [apply cacheFirst_returns |].
  split; [intros; apply networkFirst_returns |].
  split; [apply networkOnly_returns |].
  intros Hnet Hmiss. split; [| split].
  - unfold cacheFirst. run. rewrite Hmiss. run. now rewrite Hnet.
  - run. now rewrite Hnet.
  - intros ttlMs Hentry. rewrite networkFirst_on_failure, Hentry; [reflexivity |].
    unfold fetch_failed. now rewrite Hnet.
Qed.

(** ** An entry whose time stamp cannot be read *)

(** X11: an entry whose sw-cached-at header does not read as a number is
    never served by the fallback of network-first, whatever the clock and the
    TTL are: the offline stub is returned. *)
Theorem unreadable_timestamp_never_served (request : Request) (cacheName : string)
    (ttlMs : Z) (w : World) (e : Response) :
  fetch_failed w request ->
  Store.entry (caches w) cacheName (request_key request) = Some e ->
  cachedAt e = None ->
  result (networkFirstWithCache request cacheName ttlMs) w = Normal offline_stub.
Proof.
  intros Hfail Hentry Hnan.
  now rewrite (networkFirst_on_failure _ _ _ _ Hfail), Hentry, Hnan.
Qed.

(** ** Activation, again *)

Lemma kept_kept (shell_name api_name : string)
    (cs : list (string * gmap (string * string) Response)) :
  kept shell_name api_name (kept shell_name api_name cs) = kept shell_name api_name cs.
Proof.
  unfold kept. induction cs as [| nc cs IH]; [reflexivity |].
  cbn [List.filter].
  destruct (negb (is_old shell_name api_name (fst nc))) eqn:Hk; [| exact IH].
  cbn [List.filter]. rewrite Hk. now f_equal.
Qed.

Lemma kept_no_old_key (shell_name api_name : string)
    (cs : list (string * gmap (string * string) Response)) :
  List.filter (is_old shell_name api_name) (Store.keys (kept shell_name api_name cs)) = [].
Proof.
  unfold kept, Store.keys. induction cs as [| nc cs IH]; [reflexivity |].
  cbn [List.filter].
  destruct (is_old shell_name api_name (fst nc)) eqn:Hold; cbn [negb]; [exact IH |].
  cbn [map List.filter]. now rewrite Hold.
Qed.

(** X12: activating a second time changes no store and deletes nothing: the
    only host call it adds is the claim of the clients. *)
Theorem activate_twice (w : World) :
  caches (after onActivate (after onActivate w)) = caches (after onActivate w)
  /\ trace (after onActivate (after onActivate w))
     = (trace (after onActivate w) ++ [CallClaim])%list.
Proof.
  unfold onActivate.
  destruct (activate_with_run CACHE_NAME API_CACHE w) as (_ & Hc & _).
  destruct (activate_with_run CACHE_NAME API_CACHE (after (activate_with CACHE_NAME API_CACHE) w))
    as (_ & Hc2 & Ht2).
  rewrite Hc2, Ht2, Hc, kept_kept, kept_no_old_key. split; reflexivity.
Qed.

(** ** Push and click *)

Lemma or_else_truthy (x : option JSON) (d : JSON) :
  Json.truthy d = true -> Json.truthy (Json.or_else x d) = true.
Proof.
  intros Hd. unfold Json.or_else. destruct x as [v |]; [| exact Hd].
  now destruct (Json.truthy v) eqn:Hv.
Qed.

(** X13: for a payload that is absent or parses, the push handler shows
    exactly one notification and does nothing else, and the title, the body
    and the target of that notification are never undefined, null, empty, zero
    or false. *)
Theorem onPush_shows_one_notification (payload : option JSON) (w : World) :
  exists n,
    onPush (option_map IsJson payload) w = (Normal tt, log (CallShowNotification n) w)
    /\ Json.truthy (title n) = true
    /\ Json.truthy (n_body n) = true
    /\ Json.truthy (data_url n) = true.
Proof.
  destruct payload as [v |]; cbn [option_map].
  - rewrite onPush_parsed. eexists. split; [reflexivity |].
    cbn [title n_body data_url]. repeat split; now apply or_else_truthy.
  - rewrite onPush_absent. eexists. split; [reflexivity |]. repeat split.
Qed.

Lemma click_target_pushed (n : Notification) :
  Json.truthy (data_url n) = true -> click_target (notification_data n) = data_url n.
Proof.
  intros Hn. unfold click_target, notification_data, Json.prop, Json.lookup_field.
  cbn [String.eqb Ascii.eqb Bool.eqb]. unfold Json.or_else. now rewrite Hn.
Qed.

(** X14: a click closes the notification and then opens one window; its
    target is never falsy, it is the root path when the notification carries
    no data, and for the notification that the push handler shows it is the
    target that handler chose. *)
Theorem click_opens_target (data : option JSON) (payload : option JSON)
    (w : World) (s : World * list WorkerCall) :
  onNotificationClick data s
  = (Normal tt, (fst s, (snd s ++ [CallClose; CallOpenWindow (click_target data)])%list))
  /\ Json.truthy (click_target data) = true
  /\ click_target None = JString "/"
  /\ exists n,
      onPush (option_map IsJson payload) w = (Normal tt, log (CallShowNotification n) w)
      /\ click_target (notification_data n) = data_url n.
Proof.
  split; [| split; [| split]].
  - unfold onNotificationClick, wthen, call. cbn [fst snd].
    now rewrite <- app_assoc.
  - now apply or_else_truthy.
  - reflexivity.
  - destruct payload as [v |]; cbn [option_map].
    + rewrite onPush_parsed. eexists. split; [reflexivity |].
      apply click_target_pushed. cbn [data_url]. now apply or_else_truthy.
    + rewrite onPush_absent. eexists. split; [reflexivity | reflexivity].
Qed.

(** ** Installation *)

Lemma fetch_log_fields (requests : list Request) (w : World) :
  caches (requested requests w) = caches w
  /\ network (requested requests w) = network w
  /\ now (requested requests w) = now w
  /\ trace (requested requests w) = (trace w ++ map CallFetch requests)%list.
Proof.
  unfold requested. revert w. induction requests as [| r requests IH]; intros w; cbn [fold_left map].
  - repeat split. now rewrite app_nil_r.
  - destruct (IH (log (CallFetch r) w)) as (Hc & Hn & Hnow & Ht).
    rewrite Hc, Hn, Hnow, Ht. cbn [log caches network now trace].
    repeat split. now rewrite <- app_assoc.
Qed.

Lemma put_all_caches (cache : string) (l : list (Request * Response)) (w : World) :
  caches (written cache l w)
  = fold_left (fun cs rr => Store.put cs cache (request_key (fst rr)) (snd rr)) l (caches w).
Proof.
  unfold written. revert w. induction l as [| rr l IH]; intros w; cbn [fold_left]; [reflexivity |].
  now rewrite IH.
Qed.

Lemma fetched_ok_some net requests l :
  fetched_ok net requests = Some l ->
  map fst l = requests
  /\ forall r resp, List.In (r, resp) l -> net r = Some resp /\ ok resp = true.
Proof.
  revert l. induction requests as [| r requests IH]; intros l; cbn [fetched_ok].
  - intros [= <-]. split; [reflexivity | intros ? ? []].
  - destruct (net r) as [resp |] eqn:Hnet; [| discriminate].
    destruct (addAll_accepted resp) eqn:Hacc; [| discriminate].
    assert (Hok : ok resp = true).
    { unfold addAll_accepted in Hacc. now destruct (ok resp). }
    destruct (fetched_ok net requests) as [l' |]; [| discriminate].
    intros [= <-]. destruct (IH l' eq_refl) as [Hfst Hin].
    split; [cbn [map fst]; now rewrite Hfst |].
    intros r0 resp0 [[= <- <-] | Hin0]; [now split | now apply Hin].
Qed.

Lemma fetched_ok_none net requests :
  List.Exists (fun r => match net r with
                        | Some resp => ok resp = false
                        | None => True
                        end) requests ->
  fetched_ok net requests = None.
Proof.
  induction 1 as [r requests Hbad | r requests _ IH]; cbn [fetched_ok].
  - destruct (net r) as [resp |]; [| reflexivity].
    unfold addAll_accepted. now rewrite Hbad.
  - rewrite IH. destruct (net r) as [resp |]; [| reflexivity].
    now destruct (addAll_accepted resp).
Qed.

Lemma entry_put_all_other (cache : string) (l : list (Request * Response)) cs name key :
  ~ List.In key (map (fun rr => request_key (fst rr)) l) ->
  Store.entry
    (fold_left (fun cs' rr => Store.put cs' cache (request_key (fst rr)) (snd rr)) l cs)
    name key
  = Store.entry cs name key.
Proof.
  revert cs. induction l as [| rr l IH]; intros cs Hnot; cbn [fold_left]; [reflexivity |].
  cbn [map List.In] in Hnot. rewrite IH by tauto.
  apply entry_put_other_key. intros ->. tauto.
Qed.

Lemma entry_put_all (cache : string) (l : list (Request * Response)) cs r resp :
  Store.has cs cache = true ->
  List.NoDup (map (fun rr => request_key (fst rr)) l) ->
  List.In (r, resp) l ->
  Store.entry
    (fold_left (fun cs' rr => Store.put cs' cache (request_key (fst rr)) (snd rr)) l cs)
    cache (request_key r)
  = Some resp.
Proof.
  revert cs. induction l as [| rr l IH]; intros cs Hhas Hnd Hin; [destruct Hin |].
  cbn [fold_left map] in *. apply List.NoDup_cons_iff in Hnd. destruct Hnd as [Hnot Hnd].
  destruct Hin as [-> | Hin].
  - cbn [fst snd] in *. rewrite entry_put_all_other by exact Hnot.
    now apply entry_put_same.
  - apply IH; [now rewrite has_put | exact Hnd | exact Hin].
Qed.

Lemma string_app_inv_head (a b c : string) : a ++ b = a ++ c -> b = c.
Proof.
  induction a as [| x a IH]; cbn [String.append]; [auto |].
  intros [= H]. now apply IH.
Qed.

Lemma precache_keys_distinct (self_origin self_host : string) :
  List.NoDup (map (fun r => request_key r)
                (map (precache_request self_origin self_host) PRECACHE)).
Proof.
  unfold PRECACHE, precache_request, request_key. cbn [map method url href].
  repeat constructor; cbn [List.In];
    intros H; repeat destruct H as [H | H]; try contradiction;
    injection H as H; apply string_app_inv_head in H; discriminate H.
Qed.

(** The world in which [cache.addAll] decides: the shell store is open and
    every asset has been requested. *)
Lemma onInstall_run (self_origin self_host : string) (w : World) (l : list WorkerCall) :
  let requests := map (precache_request self_origin self_host) PRECACHE in
  let w1 := requested requests
              (log (CallOpen CACHE_NAME)
                 (with_caches (Store.open (caches w) CACHE_NAME) w)) in
  onInstall self_origin self_host (w, l)
  = match fetched_ok (network w) requests with
    | Some pairs =>
        (Normal tt, (written CACHE_NAME pairs w1, (l ++ [CallSkipWaiting])%list))
    | None => (Throw TypeError, (w1, l))
    end.
Proof.
  intros requests w1. unfold onInstall, wthen, lift, skipWaiting, call, bind,
    caches_open, cache_addAll.
  cbn [fst snd network log with_caches]. fold requests.
  now destruct (fetched_ok (network w) requests).
Qed.

Lemma install_world_fields (self_origin self_host : string) (w : World) :
  let w1 := requested (map (precache_request self_origin self_host) PRECACHE)
              (log (CallOpen CACHE_NAME)
                 (with_caches (Store.open (caches w) CACHE_NAME) w)) in
  caches w1 = Store.open (caches w) CACHE_NAME
  /\ trace w1
     = (trace w ++ CallOpen CACHE_NAME
          :: map CallFetch (map (precache_request self_origin self_host) PRECACHE))%list.
Proof.
  intros w1. subst w1.
  destruct (fetch_log_fields (map (precache_request self_origin self_host) PRECACHE)
              (log (CallOpen CACHE_NAME)
                 (with_caches (Store.open (caches w) CACHE_NAME) w)))
    as (Hc & _ & _ & Ht).
  rewrite Hc, Ht. cbn [caches trace log with_caches]. split; [reflexivity |].
  now rewrite <- app_assoc.
Qed.

(** X15: when the fetch of one of the pre-cached assets is rejected or
    answers with a status that is not ok, the install promise rejects,
    skipWaiting is not called, and no entry of any store has changed, although
    every asset was requested. *)
Theorem install_fails_atomically (self_origin self_host : string) (w : World)
    (l : list WorkerCall) :
  List.Exists (fun path => fetch_failed w (precache_request self_origin self_host path))
    PRECACHE ->
  fst (onInstall self_origin self_host (w, l)) = Throw TypeError
  /\ snd (snd (onInstall self_origin self_host (w, l))) = l
  /\ (forall name key,
        Store.entry (caches (fst (snd (onInstall self_origin self_host (w, l))))) name key
        = Store.entry (caches w) name key)
  /\ trace (fst (snd (onInstall self_origin self_host (w, l))))
     = (trace w ++ CallOpen CACHE_NAME
          :: map CallFetch (map (precache_request self_origin self_host) PRECACHE))%list.
Proof.
  intros Hbad. rewrite onInstall_run. cbv zeta.
  rewrite fetched_ok_none by (apply List.Exists_map; exact Hbad).
  destruct (install_world_fields self_origin self_host w) as [Hc Ht].
  cbn [fst snd]. rewrite Hc, Ht.
  split; [reflexivity |]. split; [reflexivity |]. split; [| reflexivity].
  intros name key. apply entry_open.
Qed.

Lemma install_entries (self_origin self_host : string) (w : World)
    (l : list WorkerCall) (s' : World * list WorkerCall) (path : string) :
  onInstall self_origin self_host (w, l) = (Normal tt, s') ->
  List.In path PRECACHE ->
  exists resp,
    network w (precache_request self_origin self_host path) = Some resp
    /\ ok resp = true
    /\ Store.entry (caches (fst s')) CACHE_NAME
         (request_key (precache_request self_origin self_host path)) = Some resp.
Proof.
  rewrite onInstall_run. cbv zeta.
  destruct (fetched_ok (network w) _) as [pairs |] eqn:Hfetched; [| discriminate].
  intros Hrun Hpath. destruct s' as [w' l'].
  assert (Hw : w' = written CACHE_NAME pairs
                      (requested (map (precache_request self_origin self_host) PRECACHE)
                         (log (CallOpen CACHE_NAME)
                            (with_caches (Store.open (caches w) CACHE_NAME) w))))
    by congruence.
  clear Hrun. subst w'. unfold fst at 1.
  destruct (fetched_ok_some _ _ _ Hfetched) as [Hfst Hok].
  assert (Hreq : List.In (precache_request self_origin self_host path) (map fst pairs))
    by (rewrite Hfst; now apply List.in_map).
  apply List.in_map_iff in Hreq. destruct Hreq as ([r resp] & Hr & Hin).
  cbn [fst] in Hr. subst r. exists resp.
  destruct (Hok _ _ Hin) as [Hnet Hresp]. split; [exact Hnet |]. split; [exact Hresp |].
  rewrite put_all_caches.
  destruct (install_world_fields self_origin self_host w) as [Hc _]. rewrite Hc.
  apply entry_put_all; [apply has_open | | exact Hin].
  rewrite <- (List.map_map fst request_key), Hfst.
  apply precache_keys_distinct.
Qed.

(** X16: when the install promise resolves, skipWaiting was called, as the
    last thing, and every pre-cached asset has its entry in the shell store:
    the ok response that the network gave for it. *)
Theorem install_success_precaches (self_origin self_host : string) (w : World)
    (l : list WorkerCall) (s' : World * list WorkerCall) :
  onInstall self_origin self_host (w, l) = (Normal tt, s') ->
  snd s' = (l ++ [CallSkipWaiting])%list
  /\ forall path,
      List.In path PRECACHE ->
      exists resp,
        network w (precache_request self_origin self_host path) = Some resp
        /\ ok resp = true
        /\ Store.entry (caches (fst s')) CACHE_NAME
             (request_key (precache_request self_origin self_host path)) = Some resp.
Proof.
  intros Hrun. split.
  - rewrite onInstall_run in Hrun. cbv zeta in Hrun.
    destruct (fetched_ok (network w) _); [| discriminate].
    now injection Hrun as <-.
  - intros path Hpath. exact (install_entries _ _ _ _ _ _ Hrun Hpath).
Qed.

Lemma find_kept (shell_name api_name name : string)
    (cs : list (string * gmap (string * string) Response)) :
  is_old shell_name api_name name = false ->
  Store.find (kept shell_name api_name cs) name = Store.find cs name.
Proof.
  intros Hname. unfold kept.
  induction cs as [| [n c] cs IH]; [reflexivity |].
  cbn [List.filter fst Store.find].
  destruct (is_old shell_name api_name n) eqn:Hold; cbn [negb Store.find].
  - destruct (String.eqb_spec n name) as [-> | _]; [congruence | exact IH].
  - destruct (String.eqb n name); [reflexivity | exact IH].
Qed.

(** X17: after an install that resolved and the activation that follows,
    stale-while-revalidate answers the request of every pre-cached asset with
    the response stored at install, also when every fetch is rejected. *)
Theorem shell_served_offline_after_install (self_origin self_host : string)
    (w : World) (l : list WorkerCall) (s' : World * list WorkerCall)
    (path : string) (later : Z) :
  onInstall self_origin self_host (w, l) = (Normal tt, s') ->
  List.In path PRECACHE ->
  exists resp,
    network w (precache_request self_origin self_host path) = Some resp
    /\ result (staleWhileRevalidate (precache_request self_origin self_host path))
         (later_offline later (after onActivate (fst s')))
       = Normal (Some resp).
Proof.
  intros Hrun Hpath.
  destruct (install_entries _ _ _ _ _ _ Hrun Hpath) as (resp & Hnet & _ & Hentry).
  exists resp. split; [exact Hnet |].
  rewrite staleWhileRevalidate_offline by reflexivity.
  cbn [later_offline caches]. unfold onActivate.
  destruct (activate_with_run CACHE_NAME API_CACHE (fst s')) as (_ & Hc & _).
  rewrite Hc. unfold Store.entry in *. rewrite find_kept by reflexivity.
  now rewrite Hentry.
Qed.

(** ** Background sync *)

Lemma post_all (clients : list string) (s : World * list WorkerCall) :
  fold_left (fun s' c => snd (call (CallPostMessage c sync_complete) s')) clients s
  = (fst s, (snd s ++ map (fun c => CallPostMessage c sync_complete) clients)%list).
Proof.
  revert s. induction clients as [| c clients IH]; intros [w l]; cbn [fold_left map].
  - cbn [fst snd]. now rewrite app_nil_r.
  - rewrite IH. unfold call. cbn [fst snd]. now rewrite <- app_assoc.
Qed.

(** X18: a sync event with the tag sync-comparisons posts one message
    {"type":"SYNC_COMPLETE"} to each open client, in their order, and touches
    neither the stores nor the network; a sync event with any other tag is
    not handled at all. *)
Theorem sync_notifies_each_client (tag : string) (clients : list string)
    (s : World * list WorkerCall) :
  (exists p,
      onSync "sync-comparisons" clients = Some p
      /\ p s = (Normal tt,
                (fst s, (snd s ++ map (fun c => CallPostMessage c sync_complete) clients)%list)))
  /\ Json.stringify sync_complete = Json.sq "{'type':'SYNC_COMPLETE'}"
  /\ (tag <> "sync-comparisons" -> onSync tag clients = None).
Proof.
  split; [| split].
  - exists (syncPendingComparisons clients). split; [reflexivity |].
    unfold syncPendingComparisons. now rewrite post_all.
  - reflexivity.
  - intros Htag. unfold onSync, JsString.strict_eq.
    destruct (String.eqb_spec tag "sync-comparisons"); [contradiction | reflexivity].
Qed.

(** ** The store invariant over the life cycle *)

Lemma stores_ok_kept (shell_name api_name : string) cs :
  stores_ok cs -> stores_ok (kept shell_name api_name cs).
Proof.
  unfold stores_ok, kept. induction 1 as [| nc cs Hnc Hcs IH]; cbn [List.filter].
  - constructor.
  - destruct (negb (is_old shell_name api_name (fst nc))); [now constructor | exact IH].
Qed.

Lemma stores_ok_put_all (cache : string) (l : list (Request * Response)) cs :
  (forall r resp, List.In (r, resp) l -> ok resp = true) ->
  stores_ok cs ->
  stores_ok (fold_left (fun cs' rr => Store.put cs' cache (request_key (fst rr)) (snd rr))
               l cs).
Proof.
  revert cs. induction l as [| [r resp] l IH]; intros cs Hok Hcs; cbn [fold_left]; [exact Hcs |].
  apply IH.
  - intros r0 resp0 Hin. apply (Hok r0 resp0). now right.
  - apply stores_ok_put; [| exact Hcs]. apply (Hok r resp). now left.
Qed.

(** X19: installation and activation keep the store invariant of the
    strategies: when every entry of every store is an ok response before,
    so it is after an install, resolved or rejected, and after an
    activation. *)
Theorem lifecycle_keeps_stores_ok (self_origin self_host : string) (w : World)
    (l : list WorkerCall) :
  stores_ok (caches w) ->
  stores_ok (caches (fst (snd (onInstall self_origin self_host (w, l)))))
  /\ stores_ok (caches (after onActivate w)).
Proof.
  intros Hw. split.
  - rewrite onInstall_run. cbv zeta.
    destruct (install_world_fields self_origin self_host w) as [Hc _].
    destruct (fetched_ok (network w) _) as [pairs |] eqn:Hfetched.
    + unfold snd at 1. unfold fst at 1. rewrite put_all_caches, Hc.
      apply stores_ok_put_all; [| now apply stores_ok_open].
      intros r resp Hin. now apply (proj2 (fetched_ok_some _ _ _ Hfetched) r resp).
    + unfold snd at 1. unfold fst at 1. rewrite Hc. now apply stores_ok_open.
  - unfold onActivate.
    destruct (activate_with_run CACHE_NAME API_CACHE w) as (_ & Hc & _).
    rewrite Hc. now apply stores_ok_kept.
Qed.

(** ** Cache first, right after activation *)

Lemma match_all_kept (shell_name api_name : string) cs key :
  shell_name <> api_name ->
  List.NoDup (Store.keys cs) ->
  Store.entry cs api_name key = None ->
  Store.match_all (kept shell_name api_name cs) key = Store.entry cs shell_name key.
Proof.
  intros Hne. unfold kept, Store.entry, Store.keys.
  induction cs as [| [n c] cs IH]; [reflexivity |].
  cbn [map fst List.filter Store.find]. intros Hnd Hapi.
  apply List.NoDup_cons_iff in Hnd. destruct Hnd as [Hnot Hnd].
  destruct (is_old shell_name api_name n) eqn:Hold; cbn [negb].
  - assert (Hn : n <> shell_name /\ n <> api_name).
    { split; intros ->; unfold is_old, JsString.strict_eq in Hold;
        rewrite String.eqb_refl in Hold; cbn in Hold;
        [discriminate | now rewrite andb_false_r in Hold]. }
    destruct Hn as [Hs Ha].
    destruct (String.eqb_spec n shell_name); [contradiction |].
    destruct (String.eqb_spec n api_name); [contradiction |].
    now apply IH.
  - apply is_old_false in Hold. cbn [Store.match_all].
    destruct Hold as [-> | ->].
    + rewrite String.eqb_refl.
      destruct (String.eqb_spec shell_name api_name); [contradiction |].
      destruct (c !! key) eqn:Hc; [reflexivity |].
      rewrite IH by assumption.
      now rewrite (find_not_key cs shell_name Hnot).
    + rewrite String.eqb_refl in Hapi. rewrite Hapi.
      destruct (String.eqb_spec api_name shell_name); [congruence |].
      apply IH; [exact Hnd |].
      now rewrite (find_not_key cs api_name Hnot).
Qed.

(** X20: right after an activation the only stores left are the two current
    ones, so the lookup of cache-first over all stores gives the entry of the
    shell store whenever the API store has no entry for the request; if the
    shell store has one, cache-first returns it with no host call. *)
Theorem cacheFirst_after_activation (request : Request) (w : World) :
  List.NoDup (Store.keys (caches w)) ->
  Store.entry (caches w) API_CACHE (request_key request) = None ->
  Store.match_all (caches (after onActivate w)) (request_key request)
  = Store.entry (caches w) CACHE_NAME (request_key request)
  /\ forall c,
      Store.entry (caches w) CACHE_NAME (request_key request) = Some c ->
      cacheFirst request (after onActivate w) = (Normal c, after onActivate w).
Proof.
  intros Hnd Hapi.
  assert (Hmatch : Store.match_all (caches (after onActivate w)) (request_key request)
                   = Store.entry (caches w) CACHE_NAME (request_key request)).
  { unfold onActivate.
    destruct (activate_with_run CACHE_NAME API_CACHE w) as (_ & Hc & _).
    rewrite Hc. apply match_all_kept; [discriminate | exact Hnd | exact Hapi]. }
  split; [exact Hmatch |].
  intros c Hc. rewrite Hc in Hmatch.
  generalize dependent (after onActivate w). intros w' Hmatch.
  unfold cacheFirst. run. now rewrite Hmatch.
Qed.

(** ** The further statements at concrete requests and worlds *)

(** A first visit to a tile: the response is returned and its stamped copy
    is in the API store.  A tile answered with 204: the offline stub is
    returned and the API store, just opened, is empty.  An Overpass query
    sent with POST: nothing is stored. *)
Lemma networkFirst_success_witness :
  (result (networkFirstWithCache osm_tile API_CACHE TTL) first_visit_world
   = Normal (text_response 200 "fresh")
   /\ Store.entry
        (caches (after (networkFirstWithCache osm_tile API_CACHE TTL) first_visit_world))
        API_CACHE (request_key osm_tile)
      = Some (stamped (text_response 200 "fresh") 1700000000000))
  /\ (result (networkFirstWithCache osm_tile API_CACHE TTL) no_content_world
      = Normal offline_stub
      /\ caches (after (networkFirstWithCache osm_tile API_CACHE TTL) no_content_world)
         = [(API_CACHE, ∅)])
  /\ Store.entry
       (caches (after (networkFirstWithCache overpass_query API_CACHE TTL)
                  first_visit_world))
       API_CACHE (request_key overpass_query)
     = None.
Proof.
  split; [| split].
  - destruct (proj1 (networkFirst_success osm_tile API_CACHE TTL first_visit_world
                       (text_response 200 "fresh") eq_refl eq_refl) eq_refl)
      as (Hr & _ & He & _).
    split; [exact Hr | exact He].
  - destruct (proj2 (networkFirst_success osm_tile API_CACHE TTL no_content_world
                       (text_response 204 "") eq_refl eq_refl) eq_refl)
      as (Hr & Hc & _).
    split; [exact Hr | exact Hc].
  - destruct (proj1 (networkFirst_success overpass_query API_CACHE TTL first_visit_world
                       (text_response 200 "fresh") eq_refl eq_refl) eq_refl)
      as (_ & _ & He & _).
    exact He.
Defined.

(** The tile fetched on the first visit, asked again ten minutes later and
    an hour later with the network down; the Overpass query, whose answer the
    host did not store, asked again ten minutes later. *)
Lemma networkFirst_store_then_offline_witness :
  result (networkFirstWithCache osm_tile API_CACHE TTL)
    (later_offline 1700000600000
       (after (networkFirstWithCache osm_tile API_CACHE TTL) first_visit_world))
  = Normal (stamped (text_response 200 "fresh") 1700000000000)
  /\ result (networkFirstWithCache osm_tile API_CACHE TTL)
       (later_offline 1700003600000
          (after (networkFirstWithCache osm_tile API_CACHE TTL) first_visit_world))
     = Normal offline_stub
  /\ result (networkFirstWithCache overpass_query API_CACHE TTL)
       (later_offline 1700000600000
          (after (networkFirstWithCache overpass_query API_CACHE TTL) first_visit_world))
     = Normal offline_stub.
Proof.
  split; [| split].
  - exact (networkFirst_store_then_offline osm_tile API_CACHE TTL first_visit_world
             (text_response 200 "fresh") 1700000600000 eq_refl eq_refl eq_refl).
  - exact (networkFirst_store_then_offline osm_tile API_CACHE TTL first_visit_world
             (text_response 200 "fresh") 1700003600000 eq_refl eq_refl eq_refl).
  - exact (networkFirst_store_then_offline overpass_query API_CACHE TTL first_visit_world
             (text_response 200 "fresh") 1700000600000 eq_refl eq_refl eq_refl).
Defined.

(** The script fetched on the first visit is served again with the network
    down; fetched as partial content, it is in no store afterwards. *)
Lemma cacheFirst_second_request_witness :
  cacheFirst leaflet_js
    (with_network (fun _ => None) (after (cacheFirst leaflet_js) first_visit_world))
  = (Normal (text_response 200 "fresh"),
     with_network (fun _ => None) (after (cacheFirst leaflet_js) first_visit_world))
  /\ Store.match_all (caches (after (cacheFirst leaflet_js) partial_world))
       (request_key leaflet_js)
     = None.
Proof.
  split.
  - exact (proj1 (cacheFirst_second_request leaflet_js first_visit_world
                    (text_response 200 "fresh") (fun _ => None) eq_refl eq_refl eq_refl)
             eq_refl).
  - exact (proj2 (cacheFirst_second_request leaflet_js partial_world
                    (text_response 206 "part") (fun _ => None) eq_refl eq_refl eq_refl)
             eq_refl).
Defined.

(** The script asked for while offline, with nothing stored. *)
Lemma cacheFirst_failure_not_stored_witness :
  caches (after (cacheFirst leaflet_js) offline_world) = caches offline_world
  /\ trace (after (cacheFirst leaflet_js) (after (cacheFirst leaflet_js) offline_world))
     = [CallFetch leaflet_js; CallFetch leaflet_js].
Proof.
  destruct (cacheFirst_failure_not_stored leaflet_js offline_world eq_refl I)
    as (_ & Hc & _ & Htwice).
  split; [exact Hc |]. now rewrite Htwice.
Defined.

(** The manifest's cached entry is replaced by the fresh response; the
    script, answered with partial content, gets no entry. *)
Lemma staleWhileRevalidate_refreshes_witness :
  Store.entry (caches (after (staleWhileRevalidate manifest) shell_world)) CACHE_NAME
    (request_key manifest)
  = Some (text_response 200 "fresh")
  /\ Store.entry (caches (after (staleWhileRevalidate leaflet_js) partial_world))
       CACHE_NAME (request_key leaflet_js)
     = None.
Proof.
  split.
  - exact (proj1 (proj1 (proj1 (staleWhileRevalidate_refreshes manifest shell_world)
                           (text_response 200 "fresh") eq_refl eq_refl)
                    eq_refl)).
  - exact (proj2 (proj1 (staleWhileRevalidate_refreshes leaflet_js partial_world)
                    (text_response 206 "part") eq_refl eq_refl)
             eq_refl).
Defined.


(** A tile whose header says yesterday is not served. *)
Lemma unreadable_timestamp_never_served_witness :
  result (networkFirstWithCache osm_tile API_CACHE TTL)
    (api_world (response_with "tile" 200 (Headers.set "sw-cached-at" "yesterday" ∅))
       1700000000000)
  = Normal offline_stub.
Proof.
  exact (unreadable_timestamp_never_served osm_tile API_CACHE TTL
           (api_world (response_with "tile" 200 (Headers.set "sw-cached-at" "yesterday" ∅))
              1700000000000)
           (response_with "tile" 200 (Headers.set "sw-cached-at" "yesterday" ∅))
           I eq_refl eq_refl).
Defined.

(** An install while offline. *)
Lemma install_fails_atomically_witness :
  fst (onInstall app_origin "precozap.app" (offline_world, [])) = Throw TypeError
  /\ snd (snd (onInstall app_origin "precozap.app" (offline_world, []))) = [].
Proof.
  destruct (install_fails_atomically app_origin "precozap.app" offline_world [])
    as (Hr & Hl & _).
  - apply List.Exists_cons_hd. exact I.
  - split; [exact Hr | exact Hl].
Defined.

(** An install with the network up. *)
Lemma install_success_precaches_witness :
  snd (snd (onInstall app_origin "precozap.app" (first_visit_world, [])))
  = [CallSkipWaiting]
  /\ exists resp,
      network first_visit_world (precache_request app_origin "precozap.app" "/index.html")
      = Some resp
      /\ ok resp = true
      /\ Store.entry
           (caches (fst (snd (onInstall app_origin "precozap.app" (first_visit_world, [])))))
           CACHE_NAME
           (request_key (precache_request app_origin "precozap.app" "/index.html"))
         = Some resp.
Proof.
  destruct (install_success_precaches app_origin "precozap.app" first_visit_world []
              (snd (onInstall app_origin "precozap.app" (first_visit_world, [])))
              eq_refl) as [Hl Hentries].
  split; [exact Hl |]. apply Hentries. now left.
Defined.

(** The manifest, offline, after an install with the network up and the
    activation. *)
Lemma shell_served_offline_after_install_witness :
  exists resp,
    network first_visit_world (precache_request app_origin "precozap.app" "/manifest.json")
    = Some resp
    /\ result
         (staleWhileRevalidate (precache_request app_origin "precozap.app" "/manifest.json"))
         (later_offline 1700086400000
            (after onActivate
               (fst (snd (onInstall app_origin "precozap.app" (first_visit_world, []))))))
       = Normal (Some resp).
Proof.
  apply (shell_served_offline_after_install app_origin "precozap.app" first_visit_world []
           (snd (onInstall app_origin "precozap.app" (first_visit_world, [])))
           "/manifest.json" 1700086400000 eq_refl).
  right. now left.
Defined.

(** A first install and a first activation. *)
Lemma lifecycle_keeps_stores_ok_witness :
  stores_ok
    (caches (fst (snd (onInstall app_origin "precozap.app" (first_visit_world, [])))))
  /\ stores_ok (caches (after onActivate first_visit_world)).
Proof.
  apply (lifecycle_keeps_stores_ok app_origin "precozap.app" first_visit_world []).
  constructor.
Defined.

(** After an activation the store of the page is gone, and the lookup of the
    script misses as the shell store does. *)
Lemma cacheFirst_after_activation_witness :
  Store.match_all (caches (after onActivate page_store_world)) (request_key leaflet_js)
  = None.
Proof.
  destruct (cacheFirst_after_activation leaflet_js page_store_world) as [Hmatch _].
  - repeat constructor; cbn [List.In]; intros H;
      repeat destruct H as [H | H]; try contradiction; discriminate H.
  - reflexivity.
  - exact Hmatch.
Defined.
